(** * abTEM slicing: a shallow embedding of [abtem/slicing.py]

    The module groups the atoms of a structure into slices stacked along the
    z axis.  Python floats are idealised as exact rationals ([Q]); numeric
    equality is [Qeq] ([==]).  Python integers are [Z], so that negative
    list indices keep their wrap-around meaning.  Exceptions are values of
    an error monad.

    Properties that depend on how sums and quotients are rounded are
    stated over the module [Rounded], which embeds the same code over an
    arithmetic given as a parameter and instantiates it with binary64. *)

From Stdlib Require Import ZArith QArith Qround Qabs Lqa Lia List Bool Sorted.
From Stdlib Require PrimFloat FloatOps SpecFloat Uint63.
Import ListNotations.

Set Implicit Arguments.

(** ** Exceptions *)

Inductive exn : Type :=
| IndexError
| ValueError
| RuntimeError
| AssertionError
| ZeroDivisionError
| NotImplementedError
| OverflowError.

Inductive result (A : Type) : Type :=
| Ok (a : A)
| Raise (e : exn).

Arguments Ok {A} a.
Arguments Raise {A} e.

Definition bind {A B : Type} (r : result A) (k : A -> result B) : result B :=
  match r with
  | Ok a => k a
  | Raise e => Raise e
  end.

Notation "x <- r ;; k" := (bind r (fun x => k))
  (at level 61, r at next level, right associativity).

(** ** Python sequences *)

Module Py.

Definition len {A : Type} (l : list A) : Z := Z.of_nat (length l).

(** [l[i]] for an integer [i]: a negative index counts from the end. *)
Definition getitem {A : Type} (l : list A) (i : Z) : result A :=
  let j := (if i <? 0 then i + len l else i)%Z in
  if ((j <? 0) || (len l <=? j))%Z then Raise IndexError
  else match nth_error l (Z.to_nat j) with
       | Some x => Ok x
       | None => Raise IndexError
       end.

(** How a slice bound is brought into [0, len]. *)
Definition clamp (n i : Z) : Z :=
  (if i <? 0 then Z.max 0 (i + n) else Z.min i n)%Z.

(** [l[lo:hi]], with [None] for an omitted bound. *)
Definition getslice {A : Type} (l : list A) (lo hi : option Z) : list A :=
  let n := len l in
  let a := match lo with None => 0%Z | Some i => clamp n i end in
  let b := match hi with None => n | Some i => clamp n i end in
  firstn (Z.to_nat (b - a)) (skipn (Z.to_nat a) l).

(** [(x,) * k]: a non-positive count gives the empty tuple. *)
Definition tuple_repeat {A : Type} (x : A) (k : Z) : list A :=
  repeat x (Z.to_nat k).

End Py.

(** ** The numpy and itertools operations the module calls *)

Module Np.

(** [np.sum]; the sum of an empty sequence is 0. *)
Definition sum (l : list Q) : Q := fold_left Qplus l 0.

Fixpoint accumulate_from (acc : Q) (l : list Q) : list Q :=
  match l with
  | [] => []
  | x :: r => (acc + x) :: accumulate_from (acc + x) r
  end.

(** [itertools.accumulate] and [np.cumsum]: the running sums. *)
Definition accumulate (l : list Q) : list Q :=
  match l with
  | [] => []
  | x :: r => x :: accumulate_from x r
  end.

Definition cumsum := accumulate.

Definition rtol : Q := 1 # 100000.
Definition atol : Q := 1 # 100000000.

(** [np.isclose(a, b)] with the default tolerances:
    [|a - b| <= atol + rtol * |b|]. *)
Definition isclose (a b : Q) : bool :=
  Qle_bool (Qabs (a - b)) (atol + rtol * Qabs b).

(** [np.digitize(x, bins)] with [right=False], for bins in increasing
    order: the index [i] with [bins[i-1] <= x < bins[i]], which is the
    number of bins that are [<= x]; [0] below the first bin and
    [len(bins)] from the last bin on. *)
Definition digitize (x : Q) (bins : list Q) : nat :=
  length (filter (fun b => Qle_bool b x) bins).

(** [np.concatenate] refuses an empty sequence of arrays. *)
Definition concatenate {A : Type} (ls : list (list A)) : result (list A) :=
  match ls with
  | [] => Raise ValueError
  | _ => Ok (concat ls)
  end.

(** [np.diff]: the differences of consecutive entries. *)
Fixpoint diff (l : list Q) : list Q :=
  match l with
  | x :: ((y :: _) as r) => (y - x) :: diff r
  | _ => []
  end.

(** Insertion into an increasing list without duplicates. *)
Fixpoint insert_unique (x : Z) (l : list Z) : list Z :=
  match l with
  | [] => [x]
  | y :: r =>
      if (x <? y)%Z then x :: l
      else if (x =? y)%Z then l
      else y :: insert_unique x r
  end.

(** [np.unique] on integers: the distinct values in increasing order. *)
Definition unique (l : list Z) : list Z :=
  fold_right insert_unique [] l.

Fixpoint insert_sorted (x : Q) (l : list Q) : list Q :=
  match l with
  | [] => [x]
  | y :: r => if Qle_bool x y then x :: l else y :: insert_sorted x r
  end.

(** [np.sort]. *)
Definition sort (l : list Q) : list Q :=
  fold_right insert_sorted [] l.

End Np.

(** ** Thickness validation *)

(** The two kinds of value [_validate_slice_thickness] tells apart:
    [is_number] holds of the first, the second is an iterable. *)
Inductive thickness_value : Type :=
| Number (t : Q)
| Sequence (ds : list Q).

Definition is_number (v : thickness_value) : bool :=
  match v with
  | Number _ => true
  | Sequence _ => false
  end.

(** [_validate_slice_thickness(slice_thickness, thickness, num_slices)].
    Dividing by a zero Python float raises. *)
Definition _validate_slice_thickness
  (slice_thickness : thickness_value)
  (thickness : option Q) (num_slices : option Z) : result (list Q) :=
  validated <-
    match slice_thickness with
    | Number t =>
        match thickness with
        | Some h =>
            if Qeq_bool t 0 then Raise ZeroDivisionError
            else
              let n := Qceiling (h / t) in
              if (n =? 0)%Z then Raise ZeroDivisionError
              else Ok (Py.tuple_repeat (h / inject_Z n) n)
        | None =>
            match num_slices with
            | Some k => Ok (Py.tuple_repeat t k)
            | None => Raise RuntimeError
            end
        end
    | Sequence ds => Ok ds
    end ;;
  _ <- match thickness with
       | Some h =>
           if negb (Np.isclose (Np.sum validated) h) then Raise RuntimeError
           else Ok tt
       | None => Ok tt
       end ;;
  _ <- match num_slices with
       | Some k =>
           if negb (Py.len validated =? k)%Z then Raise RuntimeError
           else Ok tt
       | None => Ok tt
       end ;;
  Ok validated.

(** ** Slice geometry *)

(** [slice_limits(slice_thickness)]: entrance and exit of each slice. *)
Definition slice_limits (slice_thickness : list Q) : list (Q * Q) :=
  let cum_thickness := Np.accumulate (0 :: slice_thickness) in
  map (fun i => (nth i cum_thickness 0, nth (S i) cum_thickness 0))
      (seq 0 (length cum_thickness - 1)).

(** The boundary in front of slice [i]: the sum of the [i] thicknesses
    before it. *)
Definition prefix_sum (i : nat) (ts : list Q) : Q := Np.sum (firstn i ts).

(** The items [__getitem__] can receive: an integer, a slice (its step is
    never read), or anything else. *)
Inductive item : Type :=
| ItemInt (i : Z)
| ItemSlice (start stop : option Z)
| ItemOther.

(** [_unpack_item(item, num_items)]. *)
Definition _unpack_item (it : item) (num_items : Z) : result (Z * Z) :=
  bounds <-
    match it with
    | ItemInt i => Ok (i, (i + 1)%Z)
    | ItemSlice start stop =>
        Ok (match start with None => 0%Z | Some s => s end,
            match stop with None => num_items | Some s => s end)
    | ItemOther => Raise RuntimeError
    end ;;
  let first_index := fst bounds in
  let last_index := Z.min (snd bounds) num_items in
  if (first_index >=? last_index)%Z then Raise IndexError
  else Ok (first_index, last_index).

(** ** Atomic structures *)

Record Vec3 : Type := mkVec3 { vx : Q; vy : Q; vz : Q }.

(** One atom: a row of [positions] with the entry of [numbers] at the same
    index. *)
Record Atom : Type := mkAtom { position : Vec3; number : Z }.

(** An ASE [Atoms] object: the atoms in index order and the three cell
    vectors (the rows of the 3x3 cell matrix). *)
Record Atoms : Type := mkAtoms {
  atom_list : list Atom;
  cell_a : Vec3;
  cell_b : Vec3;
  cell_c : Vec3
}.

Definition z_of (a : Atom) : Q := vz (position a).

(** [atoms.positions[:, 2]]. *)
Definition positions_z (atoms : Atoms) : list Q := map z_of (atom_list atoms).

(** [np.diag(atoms.cell)]. *)
Definition cell_diag (atoms : Atoms) : Q * Q * Q :=
  (vx (cell_a atoms), vy (cell_b atoms), vz (cell_c atoms)).

(** [atoms.cell[2, 2]]. *)
Definition cell_zz (atoms : Atoms) : Q := vz (cell_c atoms).

(** [atoms.cell[2, 2] = v]. *)
Definition set_cell_zz (atoms : Atoms) (v : Q) : Atoms :=
  let c := cell_c atoms in
  mkAtoms (atom_list atoms) (cell_a atoms) (cell_b atoms)
          (mkVec3 (vx c) (vy c) v).

(** [atoms.cell = (x, y, z)]: three lengths give an orthorhombic cell;
    the positions are left as they are. *)
Definition set_cell_lengths (atoms : Atoms) (x y z : Q) : Atoms :=
  mkAtoms (atom_list atoms) (mkVec3 x 0 0) (mkVec3 0 y 0) (mkVec3 0 0 z).

(** [atoms.positions[:, 2] -= d]. *)
Definition shift_z (atoms : Atoms) (d : Q) : Atoms :=
  mkAtoms
    (map (fun a =>
            let p := position a in
            mkAtom (mkVec3 (vx p) (vy p) (vz p - d)) (number a))
         (atom_list atoms))
    (cell_a atoms) (cell_b atoms) (cell_c atoms).

(** [atoms[mask]] for a Boolean mask over the atoms. *)
Definition select_mask (atoms : Atoms) (mask : Atom -> bool) : Atoms :=
  mkAtoms (filter mask (atom_list atoms))
          (cell_a atoms) (cell_b atoms) (cell_c atoms).

Fixpoint take_indices (l : list Atom) (idx : list nat) : result (list Atom) :=
  match idx with
  | [] => Ok []
  | i :: r =>
      match nth_error l i with
      | None => Raise IndexError
      | Some a => rest <- take_indices l r ;; Ok (a :: rest)
      end
  end.

(** [atoms[indices]] for an array of atom indices. *)
Definition select_indices (atoms : Atoms) (idx : list nat) : result Atoms :=
  picked <- take_indices (atom_list atoms) idx ;;
  Ok (mkAtoms picked (cell_a atoms) (cell_b atoms) (cell_c atoms)).

(** Modelled from the spec: [abtem.atoms.is_cell_orthogonal] is imported
    by the module; per the specification the constructor fails if the box
    is not orthogonal, that is if an off-diagonal term is nonzero. *)
Definition is_cell_orthogonal (atoms : Atoms) : bool :=
  Qeq_bool (vy (cell_a atoms)) 0 && Qeq_bool (vz (cell_a atoms)) 0 &&
  Qeq_bool (vx (cell_b atoms)) 0 && Qeq_bool (vz (cell_b atoms)) 0 &&
  Qeq_bool (vx (cell_c atoms)) 0 && Qeq_bool (vy (cell_c atoms)) 0.

(** ** Plane detection *)

(** [np.insert(z, [0, -1], [lo, hi])]: [lo] goes in front and [hi] in
    front of the last entry; index [-1] is out of bounds for an empty
    array. *)
Definition insert_sentinels (z : list Q) (lo hi : Q) : result (list Q) :=
  match z with
  | [] => Raise IndexError
  | _ =>
      let n := length z in
      Ok (lo :: firstn (n - 1) z ++ hi :: skipn (n - 1) z)
  end.

(** [crystal_slice_thicknesses(atoms, tolerance)], for a nonzero
    tolerance. *)
Definition crystal_slice_thicknesses (atoms : Atoms) (tolerance : Q)
  : result (list Q) :=
  z <- insert_sentinels (positions_z atoms) 0 (cell_zz atoms) ;;
  let buckets := Np.unique (map (fun v => Qfloor (v / tolerance)) z) in
  let unique := map (fun k => (inject_Z k + (1 # 2)) * tolerance) buckets in
  let slice_positions := Np.sort unique in
  let slice_thickness := Np.diff slice_positions in
  if Np.isclose (Np.sum slice_thickness) (cell_zz atoms)
  then Ok slice_thickness
  else Raise AssertionError.

(** ** The base class *)

(** The [slice_thickness] argument of the constructors. *)
Inductive thickness_arg : Type :=
| ArgStr
| ArgValue (v : thickness_value).

(** [BaseSlicedAtoms.__init__]: the validated thicknesses it stores. *)
Definition BaseSlicedAtoms_init (atoms : Atoms) (slice_thickness : thickness_arg)
  : result (list Q) :=
  if negb (is_cell_orthogonal atoms) then Raise RuntimeError
  else match slice_thickness with
       | ArgStr => Raise NotImplementedError
       | ArgValue v => _validate_slice_thickness v (Some (cell_zz atoms)) None
       end.

(** ** SliceIndexedAtoms *)

(** Modelled from the spec: [abtem.core.utils.label_to_index] is imported
    by the module.  Per the specification the per-slab membership index
    maps each slab index to the atom indices binned into it, with exactly
    [num_slabs] buckets, empty buckets allowed, and an atom whose label is
    above [max_label] in no bucket: bucket [l], for [l] from 0 to
    [max_label], lists the positions [j] with [labels[j] = l]. *)
Definition label_to_index (labels : list nat) (max_label : Z)
  : list (list nat) :=
  map (fun l =>
         filter (fun j => Nat.eqb (nth j labels 0%nat) l)
                (seq 0 (length labels)))
      (seq 0 (Z.to_nat (max_label + 1))).

Record SliceIndexedAtoms : Type := mkSliceIndexedAtoms {
  sia_atoms : Atoms;
  sia_slice_thickness : list Q;
  sia_slice_index : list (list nat)
}.

(** [len(self)], that is [num_slices]. *)
Definition sia_num_slices (s : SliceIndexedAtoms) : Z :=
  Py.len (sia_slice_thickness s).

(** The [labels] array of the constructor. *)
Definition slice_labels (atoms : Atoms) (slice_thickness : list Q)
  : list nat :=
  map (fun z => Np.digitize z (Np.cumsum slice_thickness)) (positions_z atoms).

(** [SliceIndexedAtoms.__init__]. *)
Definition SliceIndexedAtoms_init (atoms : Atoms) (slice_thickness : thickness_arg)
  : result SliceIndexedAtoms :=
  ts <- BaseSlicedAtoms_init atoms slice_thickness ;;
  let labels := slice_labels atoms ts in
  Ok (mkSliceIndexedAtoms atoms ts
        (label_to_index labels (Py.len ts - 1))).

(** The local [in_slice] of [SliceIndexedAtoms.get_atoms_in_slices]: the
    source indices of the atoms the query returns, before the species
    filter. *)
Definition sia_in_slice (s : SliceIndexedAtoms)
  (first_slice : Z) (last_slice : option Z) : result (list nat) :=
  let last_slice := match last_slice with None => first_slice | Some l => l end in
  if (last_slice - first_slice <? 2)%Z
  then Py.getitem (sia_slice_index s) first_slice
  else Np.concatenate
         (Py.getslice (sia_slice_index s) (Some first_slice) (Some last_slice)).

(** [SliceIndexedAtoms.get_atoms_in_slices]. *)
Definition sia_get_atoms_in_slices (s : SliceIndexedAtoms)
  (first_slice : Z) (last_slice : option Z) (atomic_number : option Z)
  : result Atoms :=
  in_slice <- sia_in_slice s first_slice last_slice ;;
  let last_slice := match last_slice with None => first_slice | Some l => l end in
  atoms <- select_indices (sia_atoms s) in_slice ;;
  let atoms :=
    match atomic_number with
    | Some k => select_mask atoms (fun a => (number a =? k)%Z)
    | None => atoms
    end in
  let slice_thickness :=
    Py.getslice (sia_slice_thickness s) (Some first_slice) (Some last_slice) in
  let atoms := set_cell_zz atoms (Np.sum slice_thickness) in
  Ok (shift_z atoms
        (Np.sum (Py.getslice (sia_slice_thickness s) None (Some first_slice)))).

(** ** SlicedAtoms *)

Record SlicedAtoms : Type := mkSlicedAtoms {
  sa_atoms : Atoms;
  sa_slice_thickness : list Q;
  sa_xy_padding : Q;
  sa_z_padding : Q
}.

(** [SlicedAtoms.__init__]. *)
Definition SlicedAtoms_init (atoms : Atoms) (slice_thickness : thickness_arg)
  (xy_padding z_padding : Q) : result SlicedAtoms :=
  ts <- BaseSlicedAtoms_init atoms slice_thickness ;;
  Ok (mkSlicedAtoms atoms ts xy_padding z_padding).

Definition Qlt_bool (x y : Q) : bool := negb (Qle_bool y x).

(** The Boolean mask [in_slice] of [SlicedAtoms.get_atoms_in_slices] for
    the boundaries [a] and [b]. *)
Definition sa_mask (s : SlicedAtoms) (a b : Q) (atomic_number : option Z)
  (at_ : Atom) : bool :=
  let in_slice :=
    Qle_bool (a - sa_z_padding s) (z_of at_) &&
    Qlt_bool (z_of at_) (b + sa_z_padding s) in
  match atomic_number with
  | Some k => (number at_ =? k)%Z && in_slice
  | None => in_slice
  end.

(** [SlicedAtoms.get_atoms_in_slices]. *)
Definition sa_get_atoms_in_slices (s : SlicedAtoms)
  (first_slice : Z) (last_slice : option Z) (atomic_number : option Z)
  : result Atoms :=
  let last_slice := match last_slice with None => first_slice | Some l => l end in
  la <- Py.getitem (slice_limits (sa_slice_thickness s)) first_slice ;;
  let a := fst la in
  lb <- Py.getitem (slice_limits (sa_slice_thickness s)) last_slice ;;
  let b := snd lb in
  let atoms := select_mask (sa_atoms s) (sa_mask s a b atomic_number) in
  let '(x, y, _) := cell_diag atoms in
  Ok (set_cell_lengths atoms x y (b - a)).

(** The thicknesses of a sliced structure are positive lengths. *)
Definition positive (t : Q) : Prop := (0 < t)%Q.

(** What the species filter asks of an atom. *)
Definition species_ok (atomic_number : option Z) (at_ : Atom) : Prop :=
  match atomic_number with
  | Some k => number at_ = k
  | None => True
  end.

(** ** Example structures *)

(** An atom on the z axis at height [z] with atomic number [k]. *)
Definition atom_at (z : Q) (k : Z) : Atom := mkAtom (mkVec3 0 0 z) k.

(** A structure in an orthorhombic cell of lengths [x], [y], [h]. *)
Definition orthorhombic (x y h : Q) (l : list Atom) : Atoms :=
  mkAtoms l (mkVec3 x 0 0) (mkVec3 0 y 0) (mkVec3 0 0 h).

(** Five atoms in a box of height 10. *)
Definition column10 : Atoms :=
  orthorhombic 4 4 10
    [atom_at (1 # 2) 6; atom_at 1 6; atom_at 2 14; atom_at (9 # 2) 6;
     atom_at 7 14].

(** [column10] cut into slices of thickness 2, 3 and 5. *)
Definition column10_indexed : SliceIndexedAtoms :=
  mkSliceIndexedAtoms column10 [2; 3; 5]
    [[0%nat; 1%nat]; [2%nat; 3%nat]; [4%nat]].

(** One atom half way up a box of height 1. *)
Definition unit_box : Atoms := orthorhombic 4 4 1 [atom_at (1 # 2) 14].

(** ** Indexing and iteration over a sliced structure *)

(** [range(first, last)]. *)
Definition py_range (first last : Z) : list Z :=
  map (fun k => (first + Z.of_nat k)%Z) (seq 0 (Z.to_nat (last - first))).

(** [check_slice_idx(index)] for an object of [num_slices] slices. *)
Definition check_slice_idx (num_slices index : Z) : result unit :=
  if (index >=? num_slices)%Z then Raise RuntimeError else Ok tt.

(** [len(self)] of a [SlicedAtoms]. *)
Definition sa_num_slices (s : SlicedAtoms) : Z :=
  Py.len (sa_slice_thickness s).

Section BaseMethods.

(** The [get_atoms_in_slices] of the subclass and its [len(self)]. *)
Variable get_atoms_in_slices : Z -> option Z -> option Z -> result Atoms.
Variable num_slices : Z.

(** [generate_atoms_in_slices(first_slice, last_slice, atomic_number)]:
    what the generator yields, in order; at an entry [Raise e] the
    iteration ends with [e]. *)
Definition generate_atoms_in_slices
  (first_slice : Z) (last_slice : option Z) (atomic_number : option Z)
  : list (result Atoms) :=
  let last_slice :=
    match last_slice with None => num_slices | Some l => l end in
  map (fun i => get_atoms_in_slices i None atomic_number)
      (py_range first_slice last_slice).

(** [__getitem__(item)]. *)
Definition getitem_slices (it : item) : result Atoms :=
  bounds <- _unpack_item it num_slices ;;
  get_atoms_in_slices (fst bounds) (Some (snd bounds)) None.

End BaseMethods.

Definition sia_generate (s : SliceIndexedAtoms) :=
  generate_atoms_in_slices (sia_get_atoms_in_slices s) (sia_num_slices s).

Definition sia_getitem (s : SliceIndexedAtoms) : item -> result Atoms :=
  getitem_slices (sia_get_atoms_in_slices s) (sia_num_slices s).



(** An atom of a query result next to the source atom it comes from:
    the same atom, lowered by [d]. *)
Definition lowered (atoms : Atoms) (d : Q) (j : nat) (a' : Atom) : Prop :=
  exists a : Atom,
    nth_error (atom_list atoms) j = Some a /\
    number a' = number a /\
    vx (position a') = vx (position a) /\
    vy (position a') = vy (position a) /\
    z_of a' = (z_of a - d)%Q.

(** * The code under rounding

    The definitions above compute with exact rationals.  Where a property
    depends on how sums and quotients are rounded, the code is embedded
    here over an arithmetic given as a parameter, with binary64 as one
    instance: the thickness validation, the boundary table, and the
    constructor and the queries of [SliceIndexedAtoms]. *)

Module Rounded.

Unset Implicit Arguments.

(** The float operations the module uses.  [ceil] is [np.ceil], [to_int]
    is Python's [int(x)], which raises on an infinity or a NaN. *)
Record arith : Type := mkArith {
  num : Type;
  zero : num;
  add : num -> num -> num;
  sub : num -> num -> num;
  mul : num -> num -> num;
  div : num -> num -> num;
  abs : num -> num;
  ceil : num -> num;
  to_int : num -> result Z;
  isfinite : num -> bool;
  ltb : num -> num -> bool;
  leb : num -> num -> bool;
  eqb : num -> num -> bool;
  rtol : num;
  atol : num
}.

(** A thickness argument that is not a string: one number or a
    sequence of numbers. *)
Inductive thickness_value (N : Type) : Type :=
| Number (t : N)
| Sequence (ds : list N).

Arguments Number {N} t.
Arguments Sequence {N} ds.

(** The [slice_thickness] argument of the constructors. *)
Inductive thickness_arg (N : Type) : Type :=
| ArgStr
| ArgValue (v : thickness_value N).

Arguments ArgStr {N}.
Arguments ArgValue {N} v.

(** [(x,) * k]: a count outside the index-sized integers (64 bits) is an
    overflow error; a count that is not positive gives the empty tuple.
    The memory the tuple takes is not modelled. *)
Definition tuple_repeat {N : Type} (x : N) (k : Z) : result (list N) :=
  if ((k <? - 2 ^ 63) || (2 ^ 63 - 1 <? k))%Z then Raise OverflowError
  else Ok (Py.tuple_repeat x k).

Record Vec3 (N : Type) : Type := mkVec3 { vx : N; vy : N; vz : N }.

Arguments mkVec3 {N} vx vy vz.
Arguments vx {N} v.
Arguments vy {N} v.
Arguments vz {N} v.

(** One atom: a row of [positions] with the entry of [numbers] at the
    same index. *)
Record Atom (N : Type) : Type := mkAtom { position : Vec3 N; number : Z }.

Arguments mkAtom {N} position number.
Arguments position {N} a.
Arguments number {N} a.

(** An ASE [Atoms] object: the atoms in index order and the rows of the
    cell matrix. *)
Record Atoms (N : Type) : Type := mkAtoms {
  atom_list : list (Atom N);
  cell_a : Vec3 N;
  cell_b : Vec3 N;
  cell_c : Vec3 N
}.

Arguments mkAtoms {N} atom_list cell_a cell_b cell_c.
Arguments atom_list {N} a.
Arguments cell_a {N} a.
Arguments cell_b {N} a.
Arguments cell_c {N} a.

Definition z_of {N : Type} (a : Atom N) : N := vz (position a).

(** [atoms.positions[:, 2]]. *)
Definition positions_z {N : Type} (atoms : Atoms N) : list N :=
  map z_of (atom_list atoms).

(** [atoms.cell[2, 2]]. *)
Definition cell_zz {N : Type} (atoms : Atoms N) : N := vz (cell_c atoms).

(** [atoms.cell[2, 2] = v]. *)
Definition set_cell_zz {N : Type} (atoms : Atoms N) (v : N) : Atoms N :=
  let c := cell_c atoms in
  mkAtoms (atom_list atoms) (cell_a atoms) (cell_b atoms)
          (mkVec3 (vx c) (vy c) v).

(** [atoms[mask]] for a Boolean mask over the atoms. *)
Definition select_mask {N : Type} (atoms : Atoms N) (mask : Atom N -> bool)
  : Atoms N :=
  mkAtoms (filter mask (atom_list atoms))
          (cell_a atoms) (cell_b atoms) (cell_c atoms).

Fixpoint take_indices {N : Type} (l : list (Atom N)) (idx : list nat)
  : result (list (Atom N)) :=
  match idx with
  | [] => Ok []
  | i :: r =>
      match nth_error l i with
      | None => Raise IndexError
      | Some a => rest <- take_indices l r ;; Ok (a :: rest)
      end
  end.

(** [atoms[indices]] for an array of atom indices. *)
Definition select_indices {N : Type} (atoms : Atoms N) (idx : list nat)
  : result (Atoms N) :=
  picked <- take_indices (atom_list atoms) idx ;;
  Ok (mkAtoms picked (cell_a atoms) (cell_b atoms) (cell_c atoms)).

Record SliceIndexedAtoms (N : Type) : Type := mkSliceIndexedAtoms {
  sia_atoms : Atoms N;
  sia_slice_thickness : list N;
  sia_slice_index : list (list nat)
}.

Arguments mkSliceIndexedAtoms {N} sia_atoms sia_slice_thickness
  sia_slice_index.
Arguments sia_atoms {N} s.
Arguments sia_slice_thickness {N} s.
Arguments sia_slice_index {N} s.

(** [len(self)], that is [num_slices]. *)
Definition sia_num_slices {N : Type} (s : SliceIndexedAtoms N) : Z :=
  Py.len (sia_slice_thickness s).

(** The local [in_slice] of [SliceIndexedAtoms.get_atoms_in_slices]. *)
Definition sia_in_slice {N : Type} (s : SliceIndexedAtoms N)
  (first_slice : Z) (last_slice : option Z) : result (list nat) :=
  let last_slice :=
    match last_slice with None => first_slice | Some l => l end in
  if (last_slice - first_slice <? 2)%Z
  then Py.getitem (sia_slice_index s) first_slice
  else Np.concatenate
         (Py.getslice (sia_slice_index s) (Some first_slice)
            (Some last_slice)).

Section WithArith.

Variable A : arith.

Local Notation "x + y" := (add A x y).
Local Notation "x - y" := (sub A x y).
Local Notation "x * y" := (mul A x y).
Local Notation "x / y" := (div A x y).

Fixpoint accumulate_from (acc : num A) (l : list (num A)) : list (num A) :=
  match l with
  | [] => []
  | x :: r => (acc + x) :: accumulate_from (acc + x) r
  end.

(** [itertools.accumulate] and [np.cumsum]: the running sums, each the
    rounded sum of the one before and the next entry. *)
Definition accumulate (l : list (num A)) : list (num A) :=
  match l with
  | [] => []
  | x :: r => x :: accumulate_from x r
  end.

Definition cumsum := accumulate.

(** The eight partial sums of numpy's unrolled loop, after [blocks] more
    blocks of eight entries, and the entries left. *)
Fixpoint add_blocks (r l : list (num A)) (blocks : nat)
  : list (num A) * list (num A) :=
  match blocks with
  | O => (r, l)
  | S b =>
      add_blocks (map (fun p => fst p + snd p) (combine r (firstn 8 l)))
                 (skipn 8 l) b
  end.

Definition combine8 (r : list (num A)) : num A :=
  match r with
  | [r0; r1; r2; r3; r4; r5; r6; r7] =>
      ((r0 + r1) + (r2 + r3)) + ((r4 + r5) + (r6 + r7))
  | _ => zero A
  end.

(** numpy's [pairwise_sum]: fewer than 8 entries are added from left to
    right; up to 128 go through eight partial sums; more are halved. *)
Fixpoint pairwise_sum (fuel : nat) (l : list (num A)) : num A :=
  let n := length l in
  if (n <? 8)%nat then fold_left (add A) l (zero A)
  else if (n <=? 128)%nat then
    let '(r, rest) :=
      add_blocks (firstn 8 l) (skipn 8 l) (n / 8 - 1) in
    fold_left (add A) rest (combine8 r)
  else
    match fuel with
    | O => zero A
    | S f =>
        let n2 := (n / 2 - (n / 2) mod 8)%nat in
        pairwise_sum f (firstn n2 l) + pairwise_sum f (skipn n2 l)
    end.

(** [np.sum]: the reduction starts from 0 and adds the pairwise sum. *)
Definition sum (l : list (num A)) : num A :=
  zero A + pairwise_sum (length l) l.

(** [np.isclose(a, b)] with the default tolerances. *)
Definition isclose (a b : num A) : bool :=
  (leb A (abs A (a - b)) (atol A + rtol A * abs A b) && isfinite A b)
  || eqb A a b.

Fixpoint skip_equal (v : num A) (l : list (num A)) : list (num A) :=
  match l with
  | [] => []
  | b :: r => if eqb A b v then skip_equal v r else l
  end.

Fixpoint no_step (bad : num A -> num A -> bool) (last : num A)
  (l : list (num A)) : bool :=
  match l with
  | [] => true
  | next :: r => if bad last next then false else no_step bad next r
  end.

(** The monotonicity check of [np.digitize]: 1 for bins that never
    decrease, -1 for bins that never increase and are not all equal,
    0 otherwise. *)
Definition monotonicity (bins : list (num A)) : Z :=
  match bins with
  | [] => 1
  | first :: rest =>
      match skip_equal first rest with
      | [] => 1
      | next :: more =>
          if ltb A first next
          then if no_step (fun a b => ltb A b a) next more then 1 else 0
          else if no_step (fun a b => ltb A a b) next more then (-1) else 0
      end
  end%Z.

(** Where [np.searchsorted(bins, x, side='right')] lands in sorted bins:
    after the entries that [x] is not below. *)
Definition searchsorted_right (bins : list (num A)) (x : num A) : nat :=
  length (filter (fun b => negb (ltb A x b)) bins).

(** [np.digitize(xs, bins)] with [right=False]. *)
Definition digitize (xs bins : list (num A)) : result (list nat) :=
  let mono := monotonicity bins in
  if (mono =? 0)%Z then Raise ValueError
  else if (mono =? -1)%Z
       then Ok (map (fun x =>
                       (length bins - searchsorted_right (rev bins) x)%nat)
                    xs)
       else Ok (map (searchsorted_right bins) xs).

(** [_validate_slice_thickness(slice_thickness, thickness, num_slices)]. *)
Definition _validate_slice_thickness
  (slice_thickness : thickness_value (num A))
  (thickness : option (num A)) (num_slices : option Z)
  : result (list (num A)) :=
  validated <-
    match slice_thickness with
    | Number t =>
        match thickness with
        | Some h =>
            if eqb A t (zero A) then Raise ZeroDivisionError
            else
              let n := ceil A (h / t) in
              if eqb A n (zero A) then Raise ZeroDivisionError
              else
                count <- to_int A n ;;
                tuple_repeat (h / n) count
        | None =>
            match num_slices with
            | Some k => tuple_repeat t k
            | None => Raise RuntimeError
            end
        end
    | Sequence ds => Ok ds
    end ;;
  _ <- match thickness with
       | Some h =>
           if negb (isclose (sum validated) h) then Raise RuntimeError
           else Ok tt
       | None => Ok tt
       end ;;
  _ <- match num_slices with
       | Some k =>
           if negb (Py.len validated =? k)%Z then Raise RuntimeError
           else Ok tt
       | None => Ok tt
       end ;;
  Ok validated.

(** [slice_limits(slice_thickness)]. *)
Definition slice_limits (slice_thickness : list (num A))
  : list (num A * num A) :=
  let cum_thickness := accumulate (zero A :: slice_thickness) in
  map (fun i => (nth i cum_thickness (zero A),
                 nth (S i) cum_thickness (zero A)))
      (seq 0 (length cum_thickness - 1)).

(** Modelled from the spec: [abtem.atoms.is_cell_orthogonal] is imported
    by the module; per the specification the constructor fails if the box
    is not orthogonal, that is if an off-diagonal term is nonzero. *)
Definition is_cell_orthogonal (atoms : Atoms (num A)) : bool :=
  forallb (fun v => eqb A v (zero A))
    [vy (cell_a atoms); vz (cell_a atoms); vx (cell_b atoms);
     vz (cell_b atoms); vx (cell_c atoms); vy (cell_c atoms)].

(** [BaseSlicedAtoms.__init__]. *)
Definition BaseSlicedAtoms_init (atoms : Atoms (num A))
  (slice_thickness : thickness_arg (num A))
  : result (list (num A)) :=
  if negb (is_cell_orthogonal atoms) then Raise RuntimeError
  else match slice_thickness with
       | ArgStr => Raise NotImplementedError
       | ArgValue v => _validate_slice_thickness v (Some (cell_zz atoms)) None
       end.

(** [SliceIndexedAtoms.__init__]; the buckets are built by
    [label_to_index] above. *)
Definition SliceIndexedAtoms_init (atoms : Atoms (num A))
  (slice_thickness : thickness_arg (num A))
  : result (SliceIndexedAtoms (num A)) :=
  ts <- BaseSlicedAtoms_init atoms slice_thickness ;;
  labels <- digitize (positions_z atoms) (cumsum ts) ;;
  Ok (mkSliceIndexedAtoms atoms ts (label_to_index labels (Py.len ts - 1))).

(** [atoms.positions[:, 2] -= d]. *)
Definition shift_z (atoms : Atoms (num A)) (d : num A) : Atoms (num A) :=
  mkAtoms
    (map (fun a =>
            let p := position a in
            mkAtom (mkVec3 (vx p) (vy p) (vz p - d)) (number a))
         (atom_list atoms))
    (cell_a atoms) (cell_b atoms) (cell_c atoms).

(** [SliceIndexedAtoms.get_atoms_in_slices]. *)
Definition sia_get_atoms_in_slices (s : SliceIndexedAtoms (num A))
  (first_slice : Z) (last_slice : option Z) (atomic_number : option Z)
  : result (Atoms (num A)) :=
  in_slice <- sia_in_slice s first_slice last_slice ;;
  let last_slice :=
    match last_slice with None => first_slice | Some l => l end in
  atoms <- select_indices (sia_atoms s) in_slice ;;
  let atoms :=
    match atomic_number with
    | Some k => select_mask atoms (fun a => (number a =? k)%Z)
    | None => atoms
    end in
  let slice_thickness :=
    Py.getslice (sia_slice_thickness s) (Some first_slice)
      (Some last_slice) in
  let atoms := set_cell_zz atoms (sum slice_thickness) in
  Ok (shift_z atoms
        (sum (Py.getslice (sia_slice_thickness s) None (Some first_slice)))).

(** [__getitem__(item)] of a [SliceIndexedAtoms]. *)
Definition sia_getitem (s : SliceIndexedAtoms (num A)) (it : item)
  : result (Atoms (num A)) :=
  bounds <- _unpack_item it (sia_num_slices s) ;;
  sia_get_atoms_in_slices s (fst bounds) (Some (snd bounds)) None.

(** An atom of a query result next to the source atom it comes from:
    the same atom, with [d] subtracted from its height. *)
Definition lowered (atoms : Atoms (num A)) (d : num A) (j : nat)
  (a' : Atom (num A)) : Prop :=
  exists a : Atom (num A),
    nth_error (atom_list atoms) j = Some a /\
    number a' = number a /\
    vx (position a') = vx (position a) /\
    vy (position a') = vy (position a) /\
    z_of a' = z_of a - d.

(** Whether consecutive entries are related by [r]. *)
Fixpoint sortedb (r : num A -> num A -> bool) (l : list (num A)) : bool :=
  match l with
  | a :: ((b :: _) as t) => r a b && sortedb r t
  | _ => true
  end.

(** Whether the comparisons among the values [vals] agree with one total
    preorder: [<] is the negation of the converse [<=], [==] is [<=] both
    ways, any two values are comparable and [<=] is transitive.  This
    holds of any binary64 values but NaN. *)
Definition coherentb (vals : list (num A)) : bool :=
  forallb (fun x =>
    forallb (fun y =>
      Bool.eqb (ltb A x y) (negb (leb A y x)) &&
      Bool.eqb (eqb A x y) (leb A x y && leb A y x) &&
      (leb A x y || leb A y x) &&
      forallb (fun z => implb (leb A x y && leb A y z) (leb A x z)) vals)
    vals) vals.

End WithArith.

(** ** Binary64 *)

Module F64.

Import PrimFloat FloatOps SpecFloat.

(** [np.ceil] on a binary64 number, through its sign, mantissa and
    exponent. *)
Definition ceil (x : float) : float :=
  match Prim2SF x with
  | S754_finite s m e =>
      if (0 <=? e)%Z then x
      else
        let d := (2 ^ (- e))%Z in
        if s then opp (of_uint63 (Uint63.of_Z (Zpos m / d)))
        else of_uint63 (Uint63.of_Z ((Zpos m + d - 1) / d))
  | _ => x
  end.

(** Python's [int(x)]: truncation; an infinity is an overflow error and
    a NaN a value error. *)
Definition to_int (x : float) : result Z :=
  match Prim2SF x with
  | S754_zero _ => Ok 0%Z
  | S754_infinity _ => Raise OverflowError
  | S754_nan => Raise ValueError
  | S754_finite s m e =>
      let v := (if 0 <=? e then Zpos m * 2 ^ e else Zpos m / 2 ^ (- e))%Z in
      Ok (if s then (- v)%Z else v)
  end.

Definition isfinite (x : float) : bool :=
  match Prim2SF x with
  | S754_zero _ | S754_finite _ _ _ => true
  | _ => false
  end.

#[local] Set Warnings "-inexact-float".
Local Open Scope float_scope.

(** The arithmetic of numpy's float64 and of Python's float. *)
Definition binary64 : arith :=
  mkArith float zero add sub mul div abs ceil to_int isfinite ltb leb eqb
          1e-5 1e-8.

(** Atoms on the z axis at the heights [zs], in a box of 4 by 4 by
    [h]. *)
Definition column (zs : list float) (h : float) : Atoms float :=
  mkAtoms (map (fun z => mkAtom (mkVec3 0 0 z) 6%Z) zs)
          (mkVec3 4 0 0) (mkVec3 0 4 0) (mkVec3 0 0 h).

End F64.

Definition binary64 : arith := F64.binary64.

Set Implicit Arguments.

End Rounded.

(** * Properties *)

(** ** Running sums *)

Section RunningSums.

Local Open Scope Q_scope.

Lemma fold_left_Qplus_compat (l : list Q) :
  forall a a', a == a' -> fold_left Qplus l a == fold_left Qplus l a'.
Proof.
  induction l as [|x l IH]; intros a a' Haa; simpl.
  - exact Haa.
  - apply IH. rewrite Haa. reflexivity.
Qed.

Lemma fold_left_Qplus_shift (l : list Q) :
  forall a, fold_left Qplus l a == a + fold_left Qplus l 0.
Proof.
  induction l as [|x l IH]; intros a; simpl.
  - lra.
  - rewrite (IH (a + x)), (IH (0 + x)). lra.
Qed.

Lemma sum_cons (x : Q) (l : list Q) : Np.sum (x :: l) == x + Np.sum l.
Proof.
  unfold Np.sum; simpl. rewrite fold_left_Qplus_shift. lra.
Qed.

Lemma sum_app (l1 l2 : list Q) : Np.sum (l1 ++ l2) == Np.sum l1 + Np.sum l2.
Proof.
  unfold Np.sum. rewrite fold_left_app.
  rewrite fold_left_Qplus_shift. reflexivity.
Qed.

Lemma sum_nonneg (l : list Q) :
  Forall positive l -> 0 <= Np.sum l.
Proof.
  induction 1 as [|x l Hx _ IH].
  - unfold Np.sum; simpl. lra.
  - rewrite sum_cons. unfold positive in Hx. lra.
Qed.

Lemma accumulate_from_length (l : list Q) :
  forall a, length (Np.accumulate_from a l) = length l.
Proof.
  induction l as [|x l IH]; intros a; simpl; [reflexivity|].
  now rewrite IH.
Qed.

Lemma accumulate_from_nth (l : list Q) :
  forall a i d, (i < length l)%nat ->
    nth i (Np.accumulate_from a l) d = fold_left Qplus (firstn (S i) l) a.
Proof.
  induction l as [|x l IH]; intros a i d Hi; simpl in Hi; [lia|].
  destruct i as [|i].
  - reflexivity.
  - cbn [Np.accumulate_from nth]. rewrite IH by lia. reflexivity.
Qed.

Lemma accumulate_zero_nth (ts : list Q) (i : nat) (d : Q) :
  (i <= length ts)%nat ->
  nth i (Np.accumulate (0 :: ts)) d = prefix_sum i ts.
Proof.
  intros Hi. unfold Np.accumulate, prefix_sum, Np.sum.
  destruct i as [|i]; [reflexivity|].
  cbn [nth]. apply accumulate_from_nth. lia.
Qed.

Lemma cumsum_length (ts : list Q) : length (Np.cumsum ts) = length ts.
Proof.
  destruct ts as [|t r]; [reflexivity|].
  unfold Np.cumsum, Np.accumulate. simpl. now rewrite accumulate_from_length.
Qed.

Lemma cumsum_nth (ts : list Q) (i : nat) (d : Q) :
  (i < length ts)%nat ->
  nth i (Np.cumsum ts) d == prefix_sum (S i) ts.
Proof.
  intros Hi. destruct ts as [|t r]; [simpl in Hi; lia|].
  unfold Np.cumsum, Np.accumulate, prefix_sum, Np.sum.
  destruct i as [|i].
  - simpl. lra.
  - cbn [nth]. simpl in Hi. rewrite accumulate_from_nth by lia.
    cbn [firstn fold_left]. apply fold_left_Qplus_compat. lra.
Qed.


Lemma slice_limits_length (ts : list Q) :
  length (slice_limits ts) = length ts.
Proof.
  unfold slice_limits. rewrite length_map, length_seq.
  simpl. rewrite accumulate_from_length. lia.
Qed.

Lemma slice_limits_nth (ts : list Q) (i : nat) (d : Q * Q) :
  (i < length ts)%nat ->
  nth i (slice_limits ts) d = (prefix_sum i ts, prefix_sum (S i) ts).
Proof.
  intros Hi. unfold slice_limits.
  set (cum := Np.accumulate (0 :: ts)).
  assert (Hlen : (length cum - 1 = length ts)%nat).
  { subst cum. simpl. rewrite accumulate_from_length. lia. }
  rewrite Hlen.
  rewrite (nth_indep _ d (nth 0%nat cum 0, nth 1%nat cum 0))
    by (rewrite length_map, length_seq; exact Hi).
  rewrite (map_nth (fun j => (nth j cum 0, nth (S j) cum 0)) (seq 0 (length ts)) 0%nat i).
  rewrite seq_nth by exact Hi. cbn [Nat.add].
  subst cum. rewrite !accumulate_zero_nth by lia. reflexivity.
Qed.

End RunningSums.

(** ** Thickness validation and slice geometry *)

Section Geometry.

Local Open Scope Q_scope.



End Geometry.

(** C10. An integer item [i] resolves to [(i, i + 1)]; a slice item has
    its start default to 0 and its stop to [num_items], and its last
    index clamped to [num_items]; an index error is raised exactly when
    the first index is not below the clamped last index, and otherwise
    the resolved pair is returned. *)
Theorem unpack_item_resolution :
  forall num_items : Z,
    (forall i : Z,
       _unpack_item (ItemInt i) num_items
       = if (i <? num_items)%Z then Ok (i, (i + 1)%Z) else Raise IndexError) /\
    (forall i : Z,
       _unpack_item (ItemInt i) num_items = Raise IndexError
       <-> (i >= Z.min (i + 1) num_items)%Z) /\
    (forall start stop : option Z,
       let first := match start with None => 0%Z | Some s => s end in
       let last := Z.min (match stop with None => num_items | Some s => s end)
                         num_items in
       (last <= num_items)%Z /\
       (_unpack_item (ItemSlice start stop) num_items = Raise IndexError
        <-> (first >= last)%Z) /\
       (_unpack_item (ItemSlice start stop) num_items = Ok (first, last)
        <-> (first < last)%Z)).
Proof.
  intros n. split; [|split].
  - intros i. unfold _unpack_item. cbn [bind fst snd].
    destruct (i <? n)%Z eqn:Hi.
    + apply Z.ltb_lt in Hi. rewrite Z.min_l by lia.
      destruct (i >=? i + 1)%Z eqn:Hg; [lia | reflexivity].
    + apply Z.ltb_ge in Hi. rewrite Z.min_r by lia.
      destruct (i >=? n)%Z eqn:Hg; [reflexivity | lia].
  - intros i. unfold _unpack_item. cbn [bind fst snd].
    destruct (i >=? Z.min (i + 1) n)%Z eqn:Hg.
    + split; [lia | reflexivity].
    + split; [discriminate | lia].
  - intros start stop first last. unfold _unpack_item. cbn [bind fst snd].
    fold first. fold last. split; [subst last; lia|].
    destruct (first >=? last)%Z eqn:Hg.
    + split; split; first [reflexivity | discriminate | lia].
    + split; split; first [reflexivity | discriminate | lia].
Qed.

(** ** Python indexing *)

Ltac zbool :=
  repeat match goal with
    | H : (_ <? _)%Z = true |- _ => apply Z.ltb_lt in H
    | H : (_ <? _)%Z = false |- _ => apply Z.ltb_ge in H
    | H : (_ <=? _)%Z = true |- _ => apply Z.leb_le in H
    | H : (_ <=? _)%Z = false |- _ => apply Z.leb_gt in H
    end.

Section Indexing.

Context {A : Type}.

Lemma getitem_in_range (l : list A) (i : nat) (d : A) :
  (i < length l)%nat -> Py.getitem l (Z.of_nat i) = Ok (nth i l d).
Proof.
  intros Hi. unfold Py.getitem, Py.len.
  destruct (Z.of_nat i <? 0)%Z eqn:Hneg; [zbool; lia|].
  destruct (Z.of_nat i <? 0)%Z; [discriminate|].
  destruct (Z.of_nat (length l) <=? Z.of_nat i)%Z eqn:Hge; [zbool; lia|].
  cbn [orb]. rewrite Nat2Z.id.
  rewrite (nth_error_nth' l d Hi). reflexivity.
Qed.

Lemma getitem_ok_in (l : list A) (i : Z) (x : A) :
  Py.getitem l i = Ok x -> In x l.
Proof.
  unfold Py.getitem. destruct (_ || _); [discriminate|].
  destruct (nth_error l _) eqn:E; [|discriminate].
  intros [= <-]. eapply nth_error_In; eauto.
Qed.

Lemma getslice_whole (l : list A) :
  Py.getslice l (Some 0%Z) (Some (Py.len l)) = l.
Proof.
  unfold Py.getslice, Py.clamp, Py.len.
  destruct (Z.of_nat (length l) <? 0)%Z eqn:E; [zbool; lia|].
  cbn [Z.ltb Z.compare]. rewrite Z.min_id, Z.min_l by lia.
  rewrite Z.sub_0_r, Nat2Z.id. cbn [Z.to_nat skipn]. apply firstn_all.
Qed.

Lemma getslice_empty (l : list A) (i : Z) :
  Py.getslice l (Some i) (Some i) = [].
Proof.
  unfold Py.getslice. rewrite Z.sub_diag. reflexivity.
Qed.

Lemma getslice_prefix (l : list A) (i : nat) :
  (i <= length l)%nat ->
  Py.getslice l None (Some (Z.of_nat i)) = firstn i l.
Proof.
  intros Hi. unfold Py.getslice, Py.clamp, Py.len.
  destruct (Z.of_nat i <? 0)%Z eqn:E; [zbool; lia|].
  rewrite Z.min_l, Z.sub_0_r, Nat2Z.id by lia. reflexivity.
Qed.

Lemma getslice_single (l : list A) (i : nat) (d : A) :
  (i < length l)%nat ->
  Py.getslice l (Some (Z.of_nat i)) (Some (Z.of_nat i + 1)%Z) = [nth i l d].
Proof.
  intros Hi. unfold Py.getslice, Py.clamp, Py.len.
  destruct (Z.of_nat i <? 0)%Z eqn:E; [zbool; lia|].
  destruct (Z.of_nat i + 1 <? 0)%Z eqn:E'; [zbool; lia|].
  rewrite !Z.min_l by lia.
  replace (Z.to_nat (Z.of_nat i + 1 - Z.of_nat i)) with 1%nat by lia.
  rewrite Nat2Z.id. clear E E'.
  revert i Hi. induction l as [|x l IH]; intros i Hi; simpl in Hi; [zbool; lia|].
  destruct i as [|i]; [reflexivity|].
  cbn [skipn nth]. apply IH. lia.
Qed.

End Indexing.

(** ** SlicedAtoms: membership by coordinate interval *)

Section RangeVariant.

Local Open Scope Q_scope.

Lemma slice_limits_getitem (ts : list Q) (i : nat) :
  (i < length ts)%nat ->
  Py.getitem (slice_limits ts) (Z.of_nat i)
  = Ok (prefix_sum i ts, prefix_sum (S i) ts).
Proof.
  intros Hi.
  rewrite (@getitem_in_range _ (slice_limits ts) i (0, 0))
    by (rewrite slice_limits_length; exact Hi).
  now rewrite slice_limits_nth.
Qed.

Lemma sa_mask_spec (s : SlicedAtoms) (a b : Q) (an : option Z) (at_ : Atom) :
  sa_mask s a b an at_ = true <->
  a - sa_z_padding s <= z_of at_ /\ z_of at_ < b + sa_z_padding s /\
  species_ok an at_.
Proof.
  unfold sa_mask, species_ok, Qlt_bool.
  assert (Hin :
    Qle_bool (a - sa_z_padding s) (z_of at_) &&
    negb (Qle_bool (b + sa_z_padding s) (z_of at_)) = true <->
    a - sa_z_padding s <= z_of at_ /\ z_of at_ < b + sa_z_padding s).
  { rewrite andb_true_iff, negb_true_iff, Qle_bool_iff.
    rewrite <- not_true_iff_false, Qle_bool_iff.
    split; intros [H1 H2]; split; try assumption.
    - apply Qnot_le_lt; assumption.
    - apply Qlt_not_le; assumption. }
  destruct an as [k|].
  - rewrite andb_true_iff, Z.eqb_eq, Hin. tauto.
  - rewrite Hin. tauto.
Qed.



(** C9, as stated, fails: no structure, range and pair of transverse
    paddings make a range query return different results. *)
Lemma xy_padding_never_changes_result :
  ~ exists (atoms : Atoms) (ts : list Q) (zp p1 p2 : Q)
           (first_slice : Z) (last_slice : option Z) (atomic_number : option Z),
      sa_get_atoms_in_slices (mkSlicedAtoms atoms ts p1 zp)
        first_slice last_slice atomic_number
      <> sa_get_atoms_in_slices (mkSlicedAtoms atoms ts p2 zp)
           first_slice last_slice atomic_number.
Proof.
  intros (atoms & ts & zp & p1 & p2 & f & l & an & Hne).
  apply Hne. reflexivity.
Qed.

(** C9, amended.  The transverse padding is stored and never read: a
    range query returns the same result for every value of [xy_padding].
    The padding along z is what widens membership: with a larger
    [z_padding] every atom returned before is still returned. *)
Theorem padding_effect_on_range_query :
  forall (atoms : Atoms) (ts : list Q) (first_slice : Z)
         (last_slice : option Z) (atomic_number : option Z),
    (forall zp p1 p2 : Q,
       sa_get_atoms_in_slices (mkSlicedAtoms atoms ts p1 zp)
         first_slice last_slice atomic_number
       = sa_get_atoms_in_slices (mkSlicedAtoms atoms ts p2 zp)
           first_slice last_slice atomic_number) /\
    (forall (xp zp1 zp2 : Q) (r1 : Atoms),
       zp1 <= zp2 ->
       sa_get_atoms_in_slices (mkSlicedAtoms atoms ts xp zp1)
         first_slice last_slice atomic_number = Ok r1 ->
       exists r2 : Atoms,
         sa_get_atoms_in_slices (mkSlicedAtoms atoms ts xp zp2)
           first_slice last_slice atomic_number = Ok r2 /\
         incl (atom_list r1) (atom_list r2)).
Proof.
  intros atoms ts f l an. split; [reflexivity|].
  intros xp zp1 zp2 r1 Hle H1.
  unfold sa_get_atoms_in_slices in *. cbn [sa_slice_thickness] in *.
  set (l' := match l with None => f | Some i => i end) in *.
  destruct (Py.getitem (slice_limits ts) f) as [la|]; [|discriminate].
  cbn [bind] in H1 |- *.
  destruct (Py.getitem (slice_limits ts) l') as [lb|]; [|discriminate].
  cbn [bind] in H1 |- *. unfold cell_diag in *. cbn beta iota in *.
  injection H1 as <-.
  eexists. split; [reflexivity|].
  cbn [set_cell_lengths select_mask atom_list sa_atoms].
  intros at_. rewrite !filter_In, !sa_mask_spec. cbn [sa_z_padding].
  intros (Hin & H1 & H2 & H3). repeat split; try assumption; lra.
Qed.

(** With z padding 0 slice 1 of [column10] holds two atoms; with z
    padding 1 it holds four, the two among them. *)
Lemma padding_effect_on_range_query_witness :
  exists r2 : Atoms,
    sa_get_atoms_in_slices (mkSlicedAtoms column10 [2; 3; 5] 0 1)
      1%Z None None = Ok r2 /\
    incl [atom_at 2 14; atom_at (9 # 2) 6] (atom_list r2).
Proof.
  refine (proj2 (@padding_effect_on_range_query column10 [2; 3; 5] 1%Z None None)
            0 0 1 (set_cell_lengths
                     (select_mask column10
                        (sa_mask (mkSlicedAtoms column10 [2; 3; 5] 0 0) 2 5 None))
                     4 4 (5 - 2)) _ _).
  - discriminate.
  - reflexivity.
Defined.

End RangeVariant.

(** ** Binning against the cumulative thicknesses *)

Section Binning.

Local Open Scope Q_scope.

Lemma Qle_bool_compat (a a' z : Q) :
  a == a' -> Qle_bool a z = Qle_bool a' z.
Proof.
  intros Haa.
  destruct (Qle_bool a z) eqn:E1, (Qle_bool a' z) eqn:E2; try reflexivity.
  - apply Qle_bool_iff in E1. rewrite Haa in E1.
    apply Qle_bool_iff in E1. congruence.
  - apply Qle_bool_iff in E2. rewrite <- Haa in E2.
    apply Qle_bool_iff in E2. congruence.
Qed.

Lemma digitize_cons (z b : Q) (l : list Q) :
  Np.digitize z (b :: l)
  = if Qle_bool b z then S (Np.digitize z l) else Np.digitize z l.
Proof.
  unfold Np.digitize. cbn [filter]. now destruct (Qle_bool b z).
Qed.

Lemma digitize_le_length (z : Q) (l : list Q) :
  (Np.digitize z l <= length l)%nat.
Proof.
  unfold Np.digitize. apply filter_length_le.
Qed.

Lemma digitize_accumulate_compat (z : Q) (l : list Q) :
  forall a a', a == a' ->
    Np.digitize z (Np.accumulate_from a l)
    = Np.digitize z (Np.accumulate_from a' l).
Proof.
  induction l as [|x l IH]; intros a a' Haa; [reflexivity|].
  cbn [Np.accumulate_from]. rewrite !digitize_cons.
  assert (Hx : a + x == a' + x) by (rewrite Haa; reflexivity).
  rewrite (Qle_bool_compat z Hx), (IH _ _ Hx). reflexivity.
Qed.

Lemma digitize_cumsum (z : Q) (ts : list Q) :
  Np.digitize z (Np.cumsum ts) = Np.digitize z (Np.accumulate_from 0 ts).
Proof.
  destruct ts as [|t r]; [reflexivity|].
  unfold Np.cumsum, Np.accumulate. cbn [Np.accumulate_from].
  assert (Ht : t == 0 + t) by lra.
  rewrite !digitize_cons, (Qle_bool_compat z Ht).
  rewrite (digitize_accumulate_compat z r Ht). reflexivity.
Qed.

Lemma sum_firstn_nonneg (ts : list Q) (k : nat) :
  Forall positive ts -> 0 <= Np.sum (firstn k ts).
Proof.
  intros Hpos. revert k.
  induction Hpos as [|t r Ht _ IH]; intros k.
  - rewrite firstn_nil. unfold Np.sum; simpl. lra.
  - destruct k as [|k].
    + unfold Np.sum; simpl. lra.
    + cbn [firstn]. rewrite sum_cons. specialize (IH k).
      unfold positive in Ht. lra.
Qed.

(** Bins that all lie above [z] count for nothing. *)
Lemma digitize_all_above (z : Q) (ts : list Q) :
  forall a, Forall positive ts -> z <= a ->
    Np.digitize z (Np.accumulate_from a ts) = 0%nat.
Proof.
  induction ts as [|t r IH]; intros a Hpos Hz; [reflexivity|].
  inversion Hpos as [|? ? Ht Hr]; subst. unfold positive in Ht.
  cbn [Np.accumulate_from]. rewrite digitize_cons.
  destruct (Qle_bool (a + t) z) eqn:E.
  - apply Qle_bool_iff in E. lra.
  - apply IH; [assumption | lra].
Qed.

Lemma digitize_lower (z : Q) (ts : list Q) :
  forall a k, Forall positive ts -> (k <= length ts)%nat ->
    fold_left Qplus (firstn k ts) a <= z ->
    (k <= Np.digitize z (Np.accumulate_from a ts))%nat.
Proof.
  induction ts as [|t r IH]; intros a k Hpos Hk Hz; simpl in Hk.
  - lia.
  - destruct k as [|k]; [lia|].
    inversion Hpos as [|? ? Ht Hr]; subst.
    cbn [firstn fold_left] in Hz.
    cbn [Np.accumulate_from]. rewrite digitize_cons.
    assert (Hfirst : a + t <= z).
    { rewrite fold_left_Qplus_shift in Hz.
      pose proof (sum_firstn_nonneg k Hr) as Hs. unfold Np.sum in Hs. lra. }
    apply Qle_bool_iff in Hfirst. rewrite Hfirst.
    apply le_n_S. apply IH; [assumption | lia | assumption].
Qed.

Lemma digitize_upper (z : Q) (ts : list Q) :
  forall a k, Forall positive ts -> (k < length ts)%nat ->
    z < fold_left Qplus (firstn (S k) ts) a ->
    (Np.digitize z (Np.accumulate_from a ts) <= k)%nat.
Proof.
  induction ts as [|t r IH]; intros a k Hpos Hk Hz; simpl in Hk; [lia|].
  inversion Hpos as [|? ? Ht Hr]; subst.
  cbn [Np.accumulate_from]. rewrite digitize_cons.
  destruct k as [|k].
  - cbn [firstn fold_left] in Hz.
    destruct (Qle_bool (a + t) z) eqn:E.
    + apply Qle_bool_iff in E. lra.
    + rewrite digitize_all_above; [lia | assumption | lra].
  - change (firstn (S (S k)) (t :: r)) with (t :: firstn (S k) r) in Hz.
    cbn [fold_left] in Hz.
    assert (IHk := IH (a + t) k Hr ltac:(lia) Hz).
    destruct (Qle_bool (a + t) z); lia.
Qed.

(** The label of a coordinate, for positive thicknesses: slice [k] takes
    the coordinates from its entrance on and below its exit, slice 0 also
    those below 0. *)
Lemma digitize_in_slice (z : Q) (ts : list Q) (k : nat) :
  Forall positive ts -> (k < length ts)%nat ->
  (k = 0%nat \/ prefix_sum k ts <= z) -> z < prefix_sum (S k) ts ->
  Np.digitize z (Np.cumsum ts) = k.
Proof.
  intros Hpos Hk Hlo Hhi. rewrite digitize_cumsum.
  apply Nat.le_antisymm.
  - apply digitize_upper; assumption.
  - destruct Hlo as [-> | Hlo]; [lia|].
    apply digitize_lower; [assumption | lia | exact Hlo].
Qed.

(** From the top boundary on, the label is the number of slices. *)
Lemma digitize_at_top (z : Q) (ts : list Q) :
  Forall positive ts -> Np.sum ts <= z ->
  Np.digitize z (Np.cumsum ts) = length ts.
Proof.
  intros Hpos Hz. rewrite digitize_cumsum.
  apply Nat.le_antisymm.
  - etransitivity; [apply digitize_le_length|].
    rewrite accumulate_from_length. reflexivity.
  - apply digitize_lower; [assumption | lia |].
    rewrite firstn_all. exact Hz.
Qed.


End Binning.

(** ** SliceIndexedAtoms: one slice per atom *)

Section IndexedVariant.

Local Open Scope Q_scope.

Lemma validate_ok_isclose (v : thickness_value) (h : Q) (k : option Z)
      (ts : list Q) :
  _validate_slice_thickness v (Some h) k = Ok ts ->
  Np.isclose (Np.sum ts) h = true.
Proof.
  unfold _validate_slice_thickness.
  match goal with |- bind ?first _ = _ -> _ => destruct first as [l|e] end;
    cbn [bind]; [|discriminate].
  destruct (Np.isclose (Np.sum l) h) eqn:Hc; cbn [negb bind]; [|discriminate].
  destruct k as [k|]; cbn [bind].
  - destruct (negb _); cbn [bind]; [discriminate|]. now intros [= <-].
  - now intros [= <-].
Qed.

(** What a successful construction establishes. *)
Lemma SliceIndexedAtoms_init_ok (atoms : Atoms) (arg : thickness_arg)
      (s : SliceIndexedAtoms) :
  SliceIndexedAtoms_init atoms arg = Ok s ->
  is_cell_orthogonal atoms = true /\
  sia_atoms s = atoms /\
  sia_slice_index s
  = label_to_index (slice_labels atoms (sia_slice_thickness s))
      (Py.len (sia_slice_thickness s) - 1) /\
  Np.isclose (Np.sum (sia_slice_thickness s)) (cell_zz atoms) = true.
Proof.
  unfold SliceIndexedAtoms_init, BaseSlicedAtoms_init.
  destruct (is_cell_orthogonal atoms); cbn [negb bind]; [|discriminate].
  destruct arg as [|v]; cbn [bind]; [discriminate|].
  destruct (_validate_slice_thickness v (Some (cell_zz atoms)) None)
    as [ts|e] eqn:Ev; cbn [bind]; [|discriminate].
  intros [= <-]. cbn. repeat split.
  eapply validate_ok_isclose; eauto.
Qed.

Lemma label_to_index_length (labels : list nat) (m : Z) :
  length (label_to_index labels m) = Z.to_nat (m + 1).
Proof.
  unfold label_to_index. now rewrite length_map, length_seq.
Qed.

Lemma label_to_index_In (labels : list nat) (m : Z) (k j : nat) :
  (k < Z.to_nat (m + 1))%nat ->
  In j (nth k (label_to_index labels m) []) <->
  (j < length labels)%nat /\ nth j labels 0%nat = k.
Proof.
  intros Hk. unfold label_to_index.
  set (f := fun l : nat =>
              filter (fun j => Nat.eqb (nth j labels 0%nat) l)
                     (seq 0 (length labels))).
  rewrite (nth_indep _ [] (f 0%nat)) by (now rewrite length_map, length_seq).
  rewrite (map_nth f), seq_nth by exact Hk. cbn [Nat.add].
  subst f. cbv beta. rewrite filter_In, in_seq, Nat.eqb_eq. intuition lia.
Qed.

Lemma label_to_index_NoDup (labels : list nat) (m : Z) (k : nat) :
  NoDup (nth k (label_to_index labels m) []).
Proof.
  destruct (Nat.lt_ge_cases k (length (label_to_index labels m))) as [Hk|Hk].
  - unfold label_to_index in *. rewrite length_map, length_seq in Hk.
    set (f := fun l : nat =>
                filter (fun j => Nat.eqb (nth j labels 0%nat) l)
                       (seq 0 (length labels))).
    rewrite (nth_indep _ [] (f 0%nat)) by (now rewrite length_map, length_seq).
    rewrite (map_nth f). subst f. cbv beta.
    apply NoDup_filter, seq_NoDup.
  - rewrite nth_overflow by exact Hk. constructor.
Qed.

Lemma slice_labels_nth (atoms : Atoms) (ts : list Q) (j : nat) (at_ : Atom) :
  nth_error (atom_list atoms) j = Some at_ ->
  nth j (slice_labels atoms ts) 0%nat
  = Np.digitize (z_of at_) (Np.cumsum ts).
Proof.
  intros Hj. unfold slice_labels, positions_z. rewrite map_map.
  apply (nth_error_nth _ _ 0%nat). rewrite nth_error_map, Hj. reflexivity.
Qed.

Lemma slice_labels_length (atoms : Atoms) (ts : list Q) :
  length (slice_labels atoms ts) = length (atom_list atoms).
Proof.
  unfold slice_labels, positions_z. now rewrite !length_map.
Qed.

(** Bucket [k] lists the atoms that [np.digitize] labels [k]. *)
Lemma bucket_In (atoms : Atoms) (ts : list Q) (k j : nat) :
  (k < length ts)%nat ->
  In j (nth k (label_to_index (slice_labels atoms ts) (Py.len ts - 1)) []) <->
  exists at_ : Atom,
    nth_error (atom_list atoms) j = Some at_ /\
    Np.digitize (z_of at_) (Np.cumsum ts) = k.
Proof.
  intros Hk. rewrite label_to_index_In by (unfold Py.len; lia).
  rewrite slice_labels_length. split.
  - intros [Hj Hl].
    destruct (nth_error (atom_list atoms) j) as [at_|] eqn:E.
    + exists at_. split; [reflexivity|].
      now rewrite <- (slice_labels_nth atoms ts j E).
    + apply nth_error_None in E. lia.
  - intros (at_ & E & Hl). split.
    + apply nth_error_Some. congruence.
    + now rewrite (slice_labels_nth atoms ts j E).
Qed.

Lemma take_indices_ok (l : list Atom) (idx : list nat) (d : Atom) :
  (forall j, In j idx -> (j < length l)%nat) ->
  take_indices l idx = Ok (map (fun j => nth j l d) idx).
Proof.
  induction idx as [|j idx IH]; intros Hidx; [reflexivity|].
  cbn [take_indices map].
  rewrite (nth_error_nth' l d (Hidx j (or_introl eq_refl))).
  rewrite IH by (intros j' Hj'; apply Hidx; now right). reflexivity.
Qed.

(** The buckets of a constructed object, one per slice, hold valid atom
    indices only. *)
Lemma constructed_index (atoms : Atoms) (arg : thickness_arg)
      (s : SliceIndexedAtoms) :
  SliceIndexedAtoms_init atoms arg = Ok s ->
  length (sia_slice_index s) = length (sia_slice_thickness s) /\
  forall b j, In b (sia_slice_index s) -> In j b ->
              (j < length (atom_list (sia_atoms s)))%nat.
Proof.
  intros Hs. destruct (SliceIndexedAtoms_init_ok _ _ Hs) as (_ & Ha & Hi & _).
  rewrite Hi, Ha. split.
  - rewrite label_to_index_length. unfold Py.len. lia.
  - intros b j Hb Hj.
    apply (In_nth _ _ []) in Hb. destruct Hb as (k & Hk & <-).
    rewrite label_to_index_length in Hk.
    apply label_to_index_In in Hj; [|exact Hk].
    rewrite slice_labels_length in Hj. tauto.
Qed.

End IndexedVariant.

Section IndexedQueries.

Local Open Scope Q_scope.

Lemma in_concat_nth (ls : list (list nat)) (j : nat) :
  In j (concat ls) <->
  exists k : nat, (k < length ls)%nat /\ In j (nth k ls []).
Proof.
  rewrite in_concat. split.
  - intros (b & Hb & Hj). apply (In_nth _ _ []) in Hb.
    destruct Hb as (k & Hk & <-). eauto.
  - intros (k & Hk & Hj). exists (nth k ls []). split; [|exact Hj].
    now apply nth_In.
Qed.

(** A query for the single slice [k], with its exclusive end given. *)
Lemma sia_in_slice_single (s : SliceIndexedAtoms) (k : nat) :
  (k < length (sia_slice_index s))%nat ->
  sia_in_slice s (Z.of_nat k) (Some (Z.of_nat k + 1)%Z)
  = Ok (nth k (sia_slice_index s) []).
Proof.
  intros Hk. unfold sia_in_slice.
  replace (Z.of_nat k + 1 - Z.of_nat k)%Z with 1%Z by lia.
  cbn [Z.ltb Z.compare Pos.compare Pos.compare_cont].
  now apply getitem_in_range.
Qed.

(** A query for all the slices. *)
Lemma sia_in_slice_all (s : SliceIndexedAtoms) :
  length (sia_slice_index s) = length (sia_slice_thickness s) ->
  (0 < sia_num_slices s)%Z ->
  exists all : list nat,
    sia_in_slice s 0%Z (Some (sia_num_slices s)) = Ok all /\
    forall j, In j all <-> In j (concat (sia_slice_index s)).
Proof.
  intros Hlen Hpos. unfold sia_in_slice, sia_num_slices, Py.len in *.
  rewrite Z.sub_0_r.
  destruct (Z.of_nat (length (sia_slice_thickness s)) <? 2)%Z eqn:E; zbool.
  - assert (H1 : length (sia_slice_index s) = 1%nat) by lia.
    destruct (sia_slice_index s) as [|b [|b' r]]; try discriminate.
    exists b. split; [reflexivity|]. intros j. cbn [concat].
    now rewrite app_nil_r.
  - rewrite <- Hlen. fold (Py.len (sia_slice_index s)).
    rewrite getslice_whole.
    destruct (sia_slice_index s) as [|b r] eqn:Ei; [simpl in Hlen; lia|].
    eexists. split; [reflexivity|]. reflexivity.
Qed.

(** C4. For a constructed object with [N >= 1] slices, the query
    [(0, N)] and each single-slice query [(i, i + 1)] succeed, and the
    source indices selected by [(0, N)] are exactly those selected by some
    single-slice query. *)
Theorem range_concatenation :
  forall (atoms : Atoms) (arg : thickness_arg) (s : SliceIndexedAtoms),
    SliceIndexedAtoms_init atoms arg = Ok s ->
    (0 < sia_num_slices s)%Z ->
    let N := sia_num_slices s in
    exists all : list nat,
      sia_in_slice s 0%Z (Some N) = Ok all /\
      (exists r : Atoms,
         sia_get_atoms_in_slices s 0%Z (Some N) None = Ok r /\
         length (atom_list r) = length all) /\
      (forall i : Z, (0 <= i < N)%Z ->
         exists (one : list nat) (r : Atoms),
           sia_in_slice s i (Some (i + 1)%Z) = Ok one /\
           sia_get_atoms_in_slices s i (Some (i + 1)%Z) None = Ok r /\
           length (atom_list r) = length one) /\
      (forall j : nat,
         In j all <->
         exists (i : Z) (one : list nat),
           (0 <= i < N)%Z /\
           sia_in_slice s i (Some (i + 1)%Z) = Ok one /\ In j one).
Proof.
  intros atoms arg s Hs Hpos N.
  destruct (constructed_index _ _ Hs) as (Hlen & Hvalid).
  destruct (sia_in_slice_all s Hlen Hpos) as (all & Hall & Hin).
  assert (HN : N = Z.of_nat (length (sia_slice_index s))).
  { subst N. unfold sia_num_slices, Py.len. now rewrite Hlen. }
  assert (Hsingle : forall i : Z, (0 <= i < N)%Z ->
            sia_in_slice s i (Some (i + 1)%Z)
            = Ok (nth (Z.to_nat i) (sia_slice_index s) [])).
  { intros i Hi. rewrite <- (Z2Nat.id i) at 1 2 by lia.
    apply sia_in_slice_single. lia. }
  assert (Hget : forall (f : Z) (l : option Z) (idx : list nat),
            sia_in_slice s f l = Ok idx ->
            (forall j, In j idx -> (j < length (atom_list (sia_atoms s)))%nat) ->
            exists r : Atoms,
              sia_get_atoms_in_slices s f l None = Ok r /\
              length (atom_list r) = length idx).
  { intros f l idx Hidx Hok. unfold sia_get_atoms_in_slices, select_indices.
    rewrite Hidx. cbn [bind].
    rewrite (take_indices_ok _ idx (atom_at 0 0) Hok). cbn [bind].
    eexists. split; [reflexivity|].
    cbn [shift_z set_cell_zz atom_list]. now rewrite !length_map. }
  exists all. split; [exact Hall|]. split; [|split].
  - apply Hget; [exact Hall|].
    intros j Hj. apply Hin, in_concat in Hj. destruct Hj as (b & Hb & Hj).
    eapply Hvalid; eauto.
  - intros i Hi. specialize (Hsingle i Hi).
    destruct (Hget i (Some (i + 1)%Z) _ Hsingle) as (r & Hr & Hl).
    + intros j Hj. eapply Hvalid; [|exact Hj]. apply nth_In. lia.
    + eauto.
  - intros j. rewrite Hin, in_concat_nth. split.
    + intros (k & Hk & Hj). exists (Z.of_nat k), (nth k (sia_slice_index s) []).
      split; [lia|]. split; [|exact Hj].
      rewrite (Hsingle (Z.of_nat k)) by lia. now rewrite Nat2Z.id.
    + intros (i & one & Hi & Hone & Hj).
      rewrite (Hsingle i Hi) in Hone. injection Hone as <-.
      exists (Z.to_nat i). split; [lia | exact Hj].
Qed.

End IndexedQueries.

Lemma range_concatenation_witness :
  exists all : list nat,
    sia_in_slice column10_indexed 0%Z (Some 3%Z) = Ok all /\
    (forall j : nat,
       In j all <->
       exists (i : Z) (one : list nat),
         (0 <= i < 3)%Z /\
         sia_in_slice column10_indexed i (Some (i + 1)%Z) = Ok one /\ In j one).
Proof.
  destruct (@range_concatenation column10 (ArgValue (Sequence [2; 3; 5]))
              column10_indexed eq_refl eq_refl) as (all & H1 & _ & _ & H4).
  exists all. split; [exact H1 | exact H4].
Defined.

Section Partition.

Local Open Scope Q_scope.

(** An atom labelled [k >= 1] lies at or above the entrance of slice [k]. *)
Lemma digitize_entrance (z : Q) (ts : list Q) (k : nat) :
  Forall positive ts -> (0 < k)%nat ->
  Np.digitize z (Np.cumsum ts) = k -> prefix_sum k ts <= z.
Proof.
  intros Hpos Hk Hd.
  destruct (Qlt_le_dec z (prefix_sum k ts)) as [Hlt|Hle]; [|exact Hle].
  exfalso. rewrite digitize_cumsum in Hd.
  assert (Hlen : (k <= length ts)%nat).
  { rewrite <- Hd, <- (accumulate_from_length ts 0).
    apply digitize_le_length. }
  assert (Hu := @digitize_upper z ts 0 (k - 1) Hpos ltac:(lia)).
  replace (S (k - 1)) with k in Hu by lia.
  specialize (Hu Hlt). lia.
Qed.

(** Where the constructor puts atom [j], for positive thicknesses: in
    the bucket of its label and in no other; in none from the top
    cumulative boundary on. *)
Lemma bucket_of_atom (atoms : Atoms) (arg : thickness_arg)
      (s : SliceIndexedAtoms) (j : nat) (at_ : Atom) :
  SliceIndexedAtoms_init atoms arg = Ok s ->
  Forall positive (sia_slice_thickness s) ->
  nth_error (atom_list atoms) j = Some at_ ->
  let ts := sia_slice_thickness s in
  let label := Np.digitize (z_of at_) (Np.cumsum ts) in
  (forall k, In j (nth k (sia_slice_index s) []) ->
             k = label /\ (k < length ts)%nat) /\
  ((label < length ts)%nat -> In j (nth label (sia_slice_index s) [])) /\
  (Np.sum ts <= z_of at_ -> forall k, ~ In j (nth k (sia_slice_index s) [])).
Proof.
  intros Hs Hpos Hj ts label.
  destruct (SliceIndexedAtoms_init_ok _ _ Hs) as (_ & _ & Hi & _).
  destruct (constructed_index _ _ Hs) as (Hlen & _).
  assert (Hin : forall k, In j (nth k (sia_slice_index s) []) ->
                          k = label /\ (k < length ts)%nat).
  { intros k Hk.
    assert (Hk' : (k < length ts)%nat).
    { destruct (Nat.lt_ge_cases k (length ts)) as [H|H]; [exact H|].
      rewrite nth_overflow in Hk by (rewrite Hlen; exact H). destruct Hk. }
    split; [|exact Hk'].
    rewrite Hi in Hk. apply bucket_In in Hk; [|exact Hk'].
    destruct Hk as (a' & Ha' & Hl). rewrite Hj in Ha'. injection Ha' as <-.
    subst label ts. symmetry. exact Hl. }
  split; [exact Hin|]. split.
  - intros Hl. rewrite Hi. apply bucket_In; [exact Hl|]. eauto.
  - intros Htop k Hk. destruct (Hin k Hk) as (_ & Hlt).
    destruct (Hin k Hk) as (Hkl & _).
    pose proof (digitize_at_top Hpos Htop) as Ht.
    subst label ts. rewrite Hkl, Ht in Hlt. lia.
Qed.

End Partition.

(** ** Single-slice queries of SliceIndexedAtoms *)

Section SingleSliceQueries.

Local Open Scope Q_scope.

(** Without [last_slice] the thicknesses summed for the box are
    [slice_thickness[first:first]], the empty tuple. *)
Lemma default_query_cell_zz (s : SliceIndexedAtoms) (first_slice : Z)
      (atomic_number : option Z) (r : Atoms) :
  sia_get_atoms_in_slices s first_slice None atomic_number = Ok r ->
  cell_zz r = 0.
Proof.
  unfold sia_get_atoms_in_slices.
  destruct (sia_in_slice s first_slice None) as [idx|e]; cbn [bind];
    [|discriminate].
  destruct (select_indices (sia_atoms s) idx) as [picked|e]; cbn [bind];
    [|discriminate].
  intros [= <-]. rewrite getslice_empty. reflexivity.
Qed.

(** A query for slice [k], with [last_slice] absent or [k + 1]: it
    succeeds, the box height is the sum of the thicknesses from [k] to
    the last slice given, and every atom returned is an atom of bucket
    [k] moved down by the entrance of slice [k], which leaves it at a
    non-negative height if it was at one. *)
Lemma single_slice_query (atoms : Atoms) (arg : thickness_arg)
      (s : SliceIndexedAtoms) (k : nat) (last_slice : option Z) :
  SliceIndexedAtoms_init atoms arg = Ok s ->
  Forall positive (sia_slice_thickness s) ->
  (k < length (sia_slice_thickness s))%nat ->
  last_slice = None \/ last_slice = Some (Z.of_nat k + 1)%Z ->
  exists r : Atoms,
    sia_get_atoms_in_slices s (Z.of_nat k) last_slice None = Ok r /\
    cell_zz r
    = Np.sum (Py.getslice (sia_slice_thickness s) (Some (Z.of_nat k))
                (Some (match last_slice with
                       | None => Z.of_nat k
                       | Some l => l
                       end))) /\
    forall a' : Atom,
      In a' (atom_list r) ->
      exists (j : nat) (a : Atom),
        In j (nth k (sia_slice_index s) []) /\
        nth_error (atom_list atoms) j = Some a /\
        z_of a' = z_of a - prefix_sum k (sia_slice_thickness s) /\
        (0 <= z_of a -> 0 <= z_of a').
Proof.
  intros Hs Hpos Hk Hlast.
  destruct (SliceIndexedAtoms_init_ok _ _ Hs) as (_ & Ha & _ & _).
  destruct (constructed_index _ _ Hs) as (Hlen & Hvalid).
  set (bucket := nth k (sia_slice_index s) []).
  assert (Hidx : sia_in_slice s (Z.of_nat k) last_slice = Ok bucket).
  { destruct Hlast as [-> | ->].
    - unfold sia_in_slice. rewrite Z.sub_diag.
      cbn [Z.ltb Z.compare]. apply getitem_in_range. lia.
    - apply sia_in_slice_single. lia. }
  assert (Hok : forall j, In j bucket ->
                          (j < length (atom_list (sia_atoms s)))%nat).
  { intros j Hj. eapply Hvalid; [|exact Hj]. apply nth_In. lia. }
  unfold sia_get_atoms_in_slices, select_indices. rewrite Hidx. cbn [bind].
  rewrite (take_indices_ok _ bucket (atom_at 0 0) Hok). cbn [bind].
  eexists. split; [reflexivity|]. split; [reflexivity|].
  intros a' Hin. cbn [shift_z set_cell_zz atom_list] in Hin.
  apply in_map_iff in Hin. destruct Hin as (a & <- & Hin).
  apply in_map_iff in Hin. destruct Hin as (j & <- & Hj).
  set (a := nth j (atom_list (sia_atoms s)) (atom_at 0 0)).
  assert (Hnth : nth_error (atom_list atoms) j = Some a).
  { subst a. rewrite <- Ha. apply nth_error_nth'. now apply Hok. }
  exists j, a. split; [exact Hj|]. split; [exact Hnth|].
  rewrite getslice_prefix by lia. fold (prefix_sum k (sia_slice_thickness s)).
  split; [reflexivity|].
  intros H0. unfold z_of at 1. cbn [position vz]. fold (z_of a).
  destruct (@bucket_of_atom atoms arg s j a Hs Hpos Hnth) as (Honly & _ & _).
  destruct (Honly k Hj) as (Hlabel & _).
  destruct k as [|k].
  - unfold prefix_sum, Np.sum. simpl. lra.
  - pose proof (@digitize_entrance (z_of a) _ (S k) Hpos ltac:(lia)
                  (eq_sym Hlabel)) as He.
    lra.
Qed.

(** With the exclusive end [k + 1] given, the box height is the
    thickness of slice [k]. *)
Lemma explicit_single_slice_box (s : SliceIndexedAtoms) (k : nat) :
  (k < length (sia_slice_thickness s))%nat ->
  Np.sum (Py.getslice (sia_slice_thickness s) (Some (Z.of_nat k))
            (Some (Z.of_nat k + 1)%Z))
  == nth k (sia_slice_thickness s) 0.
Proof.
  intros Hk. rewrite (@getslice_single _ (sia_slice_thickness s) k 0 Hk).
  unfold Np.sum. simpl. lra.
Qed.

(** C2, on the code: the query for slice 1 of [column10] cut as
    [2, 3, 5], with [last_slice] left out, returns its two atoms at
    non-negative local heights, in a box of height 0 and not of the
    slice's thickness 3. *)
Theorem default_single_slice_query_box :
  SliceIndexedAtoms_init column10 (ArgValue (Sequence [2; 3; 5]))
  = Ok column10_indexed /\
  exists r : Atoms,
    sia_get_atoms_in_slices column10_indexed 1%Z None None = Ok r /\
    length (atom_list r) = 2%nat /\
    Forall (fun a => 0 <= z_of a) (atom_list r) /\
    nth 1 (sia_slice_thickness column10_indexed) 0 == 3 /\
    cell_zz r == 0 /\
    ~ cell_zz r == nth 1 (sia_slice_thickness column10_indexed) 0.
Proof.
  split; [reflexivity|].
  eexists. split; [reflexivity|].
  split; [reflexivity|]. split.
  - repeat (constructor; [discriminate|]). constructor.
  - split; [reflexivity|]. split; [reflexivity|]. discriminate.
Qed.

(** C7, on the code: for a box of height 1 with an atom at 0.5 and
    tolerance 0.75 the planes found are 0.375 and 1.125, the one
    thickness 0.75 is not close to the height, and the assertion fails;
    with tolerance 0.25 it holds. *)
Theorem crystal_assertion_can_fail :
  is_cell_orthogonal unit_box = true /\
  0 < 3 # 4 /\
  crystal_slice_thicknesses unit_box (3 # 4) = Raise AssertionError /\
  exists l : list Q,
    crystal_slice_thicknesses unit_box (1 # 4) = Ok l /\
    Np.sum l == cell_zz unit_box.
Proof.
  split; [reflexivity|]. split; [reflexivity|]. split; [reflexivity|].
  eexists. split; reflexivity.
Qed.

End SingleSliceQueries.

(** * Further properties of the module *)

(** ** Validation outcomes *)

Section ValidationOutcomes.

Local Open Scope Q_scope.




(** A resolved item is a non-empty range that ends within the items:
    [first < last <= num_items]; nothing bounds [first] from below. *)
Theorem unpack_item_range :
  forall (it : item) (num_items first last : Z),
    _unpack_item it num_items = Ok (first, last) ->
    (first < last <= num_items)%Z.
Proof.
  intros it n f l H.
  unfold _unpack_item in H.
  destruct it as [i|start stop|]; cbn [bind fst snd] in H; [| |discriminate].
  - destruct (i >=? Z.min (i + 1) n)%Z eqn:E; [discriminate|].
    injection H as <- <-. lia.
  - destruct (_ >=? _)%Z eqn:E in H; [discriminate|].
    injection H as <- <-. lia.
Qed.

Lemma unpack_item_range_witness : (-5 < 3 <= 3)%Z.
Proof.
  exact (@unpack_item_range (ItemSlice (Some (-5)%Z) None) 3%Z
           (-5)%Z 3%Z eq_refl).
Defined.

End ValidationOutcomes.

(** ** The slices as intervals *)

Section SliceIntervals.

Local Open Scope Q_scope.

(** An atom labelled [k], a slice index, lies below the exit of slice
    [k]. *)
Lemma digitize_exit (z : Q) (ts : list Q) (k : nat) :
  Forall positive ts -> (k < length ts)%nat ->
  Np.digitize z (Np.cumsum ts) = k -> z < prefix_sum (S k) ts.
Proof.
  intros Hpos Hk Hd.
  destruct (Qlt_le_dec z (prefix_sum (S k) ts)) as [Hlt|Hle]; [exact Hlt|].
  exfalso. rewrite digitize_cumsum in Hd.
  assert (Hl := @digitize_lower z ts 0 (S k) Hpos ltac:(lia) Hle). lia.
Qed.

Lemma prefix_sum_zero (ts : list Q) : prefix_sum 0 ts == 0.
Proof. unfold prefix_sum, Np.sum. simpl. lra. Qed.



(** Without z padding the two variants select the same atoms: for a
    structure with no atom below 0 and positive thicknesses, the
    single-slice query of [SlicedAtoms] for slice [i] returns exactly
    the atoms that [SliceIndexedAtoms] holds in bucket [i]. *)
Theorem variants_agree_without_padding :
  forall (atoms : Atoms) (arg : thickness_arg) (s : SliceIndexedAtoms)
         (xy_padding : Q) (i : nat),
    SliceIndexedAtoms_init atoms arg = Ok s ->
    Forall positive (sia_slice_thickness s) ->
    (forall at_ : Atom, In at_ (atom_list atoms) -> 0 <= z_of at_) ->
    (i < length (sia_slice_thickness s))%nat ->
    exists r : Atoms,
      sa_get_atoms_in_slices
        (mkSlicedAtoms atoms (sia_slice_thickness s) xy_padding 0)
        (Z.of_nat i) None None = Ok r /\
      forall at_ : Atom,
        In at_ (atom_list r) <->
        exists j : nat,
          In j (nth i (sia_slice_index s) []) /\
          nth_error (atom_list atoms) j = Some at_.
Proof.
  intros atoms arg s xp i Hs Hpos Hnonneg Hi.
  set (ts := sia_slice_thickness s) in *.
  unfold sa_get_atoms_in_slices. cbn [sa_slice_thickness sa_atoms].
  rewrite (slice_limits_getitem ts Hi). cbn [bind fst snd].
  unfold cell_diag. cbn beta iota.
  eexists. split; [reflexivity|].
  intros at_. cbn [set_cell_lengths select_mask atom_list].
  rewrite filter_In, sa_mask_spec. cbn [sa_z_padding species_ok].
  split.
  - intros (Hin & Hlo & Hhi & _).
    apply In_nth_error in Hin. destruct Hin as (j & Hj).
    exists j. split; [|exact Hj].
    destruct (@bucket_of_atom atoms arg s j at_ Hs Hpos Hj) as (_ & Hput & _).
    fold ts in Hput.
    assert (Hl : Np.digitize (z_of at_) (Np.cumsum ts) = i).
    { apply digitize_in_slice; [assumption | assumption | right; lra | lra]. }
    rewrite Hl in Hput. now apply Hput.
  - intros (j & Hj & Hnth).
    assert (Hin : In at_ (atom_list atoms)) by (eapply nth_error_In; eauto).
    destruct (@bucket_of_atom atoms arg s j at_ Hs Hpos Hnth) as (Honly & _ & _).
    destruct (Honly i Hj) as (Hl & _). fold ts in Hl. symmetry in Hl.
    split; [exact Hin|].
    pose proof (digitize_exit (z_of at_) Hpos Hi Hl) as Hhi.
    assert (Hlo : prefix_sum i ts <= z_of at_).
    { destruct i as [|i'].
      - rewrite prefix_sum_zero. now apply Hnonneg.
      - apply digitize_entrance; [assumption | lia | exact Hl]. }
    repeat split; try exact I; lra.
Qed.

Lemma variants_agree_without_padding_witness :
  exists r : Atoms,
    sa_get_atoms_in_slices (mkSlicedAtoms column10 [2; 3; 5] 7 0)
      1%Z None None = Ok r /\
    forall at_ : Atom,
      In at_ (atom_list r) <->
      exists j : nat,
        In j [2%nat; 3%nat] /\ nth_error (atom_list column10) j = Some at_.
Proof.
  assert (Hpos : Forall positive (sia_slice_thickness column10_indexed)).
  { repeat (constructor; [reflexivity|]). constructor. }
  refine (@variants_agree_without_padding column10
            (ArgValue (Sequence [2; 3; 5])) column10_indexed 7 1%nat
            eq_refl Hpos _ _).
  - intros at_ Hin. simpl in Hin.
    repeat (destruct Hin as [<- | Hin]; [discriminate|]). destruct Hin.
  - simpl. lia.
Defined.

End SliceIntervals.

(** ** Indexing and iterating *)

Section ItemsAndIteration.

Local Open Scope Q_scope.

Lemma unpack_int_ok (i n : Z) :
  (i < n)%Z -> _unpack_item (ItemInt i) n = Ok (i, (i + 1)%Z).
Proof.
  intros Hi. unfold _unpack_item. cbn [bind fst snd].
  rewrite Z.min_l by lia.
  destruct (i >=? i + 1)%Z eqn:E; [lia | reflexivity].
Qed.



Lemma py_range_length (first last : Z) :
  length (py_range first last) = Z.to_nat (last - first).
Proof.
  unfold py_range. now rewrite length_map, length_seq.
Qed.

Lemma py_range_nth_error (first last : Z) (i : nat) :
  (i < Z.to_nat (last - first))%nat ->
  nth_error (py_range first last) i = Some (first + Z.of_nat i)%Z.
Proof.
  intros Hi. unfold py_range. rewrite nth_error_map.
  rewrite (nth_error_nth' _ 0%nat) by (now rewrite length_seq).
  rewrite seq_nth by exact Hi. reflexivity.
Qed.

(** Iterating over a [SliceIndexedAtoms] with the default arguments
    yields one structure per slice, and the atoms of the [i]-th are
    those that indexing by [i] returns. *)
Theorem indexed_generate_matches_getitem :
  forall (atoms : Atoms) (arg : thickness_arg) (s : SliceIndexedAtoms),
    SliceIndexedAtoms_init atoms arg = Ok s ->
    length (sia_generate s 0%Z None None) = length (sia_slice_thickness s) /\
    forall i : nat,
      (i < length (sia_slice_thickness s))%nat ->
      exists r_gen r_item : Atoms,
        nth_error (sia_generate s 0%Z None None) i = Some (Ok r_gen) /\
        sia_getitem s (ItemInt (Z.of_nat i)) = Ok r_item /\
        atom_list r_gen = atom_list r_item.
Proof.
  intros atoms arg s Hs.
  destruct (constructed_index _ _ Hs) as (Hlen & Hvalid).
  unfold sia_generate, generate_atoms_in_slices, sia_num_slices, Py.len.
  split.
  - rewrite length_map, py_range_length. lia.
  - intros i Hi. rewrite nth_error_map, py_range_nth_error by lia.
    cbn [option_map]. rewrite Z.add_0_l.
    unfold sia_getitem, getitem_slices.
    rewrite unpack_int_ok by (unfold sia_num_slices, Py.len; lia).
    cbn [bind fst snd].
    unfold sia_get_atoms_in_slices.
    assert (H1 := @sia_in_slice_single s i ltac:(lia)).
    assert (H0 : sia_in_slice s (Z.of_nat i) None
                 = Ok (nth i (sia_slice_index s) [])).
    { unfold sia_in_slice. rewrite Z.sub_diag. cbn [Z.ltb Z.compare].
      apply getitem_in_range. lia. }
    rewrite H0, H1. cbn [bind]. unfold select_indices.
    rewrite (take_indices_ok _ _ (atom_at 0 0)).
    + cbn [bind]. eexists. eexists. split; [reflexivity|].
      split; reflexivity.
    + intros j Hj. eapply Hvalid; [|exact Hj]. apply nth_In. lia.
Qed.

Lemma indexed_generate_matches_getitem_witness :
  length (sia_generate column10_indexed 0%Z None None) = 3%nat.
Proof.
  exact (proj1 (@indexed_generate_matches_getitem column10
                  (ArgValue (Sequence [2; 3; 5])) column10_indexed eq_refl)).
Defined.

End ItemsAndIteration.

Section RangeItemsAndIteration.

Local Open Scope Q_scope.






Lemma filter_map_commute {A B : Type} (p : B -> bool) (f : A -> B)
      (l : list A) :
  filter p (map f l) = map f (filter (fun a => p (f a)) l).
Proof.
  induction l as [|a l IH]; [reflexivity|].
  cbn [map filter]. destruct (p (f a)); cbn [map]; now rewrite IH.
Qed.

(** The species filter of [SliceIndexedAtoms] only removes atoms: a
    query that succeeds without filter succeeds with one, in the same
    box, and returns, in the same order, those atoms of the unfiltered
    result that have the atomic number asked for. *)
Theorem indexed_species_filter :
  forall (s : SliceIndexedAtoms) (first_slice : Z) (last_slice : option Z)
         (k : Z) (r : Atoms),
    sia_get_atoms_in_slices s first_slice last_slice None = Ok r ->
    exists r' : Atoms,
      sia_get_atoms_in_slices s first_slice last_slice (Some k) = Ok r' /\
      atom_list r' = filter (fun a => (number a =? k)%Z) (atom_list r) /\
      cell_a r' = cell_a r /\ cell_b r' = cell_b r /\ cell_c r' = cell_c r.
Proof.
  intros s f l k r. unfold sia_get_atoms_in_slices.
  destruct (sia_in_slice s f l) as [idx|e]; cbn [bind]; [|discriminate].
  destruct (select_indices (sia_atoms s) idx) as [picked|e]; cbn [bind];
    [|discriminate].
  intros [= <-]. eexists. split; [reflexivity|].
  cbn [shift_z set_cell_zz select_mask atom_list cell_a cell_b cell_c].
  split; [|repeat split].
  rewrite filter_map_commute. reflexivity.
Qed.

Lemma indexed_species_filter_witness :
  exists r' : Atoms,
    sia_get_atoms_in_slices column10_indexed 0%Z (Some 3%Z) (Some 14%Z) = Ok r' /\
    length (atom_list r') = 2%nat.
Proof.
  destruct (sia_get_atoms_in_slices column10_indexed 0%Z (Some 3%Z) None)
    as [r|e] eqn:Er; [|discriminate].
  destruct (@indexed_species_filter column10_indexed 0%Z (Some 3%Z) 14%Z r Er)
    as (r' & Hr' & Hl & _).
  exists r'. split; [exact Hr'|].
  rewrite Hl. vm_compute in Er. injection Er as <-. reflexivity.
Defined.

End RangeItemsAndIteration.

(** ** The slice index check *)

Section SliceIndexCheck.

Local Open Scope Q_scope.

(** For a non-negative index, [check_slice_idx] lets through exactly the
    indices at which a single-slice query of [SlicedAtoms] succeeds. *)
Theorem check_slice_idx_guards_query :
  forall (s : SlicedAtoms) (index : Z) (atomic_number : option Z),
    (0 <= index)%Z ->
    (check_slice_idx (sa_num_slices s) index = Ok tt <->
     exists r : Atoms,
       sa_get_atoms_in_slices s index None atomic_number = Ok r).
Proof.
  intros s index an H0. unfold check_slice_idx, sa_num_slices, Py.len.
  destruct (index >=? Z.of_nat (length (sa_slice_thickness s)))%Z eqn:E.
  - split; [discriminate|]. intros (r & Hr).
    unfold sa_get_atoms_in_slices in Hr.
    assert (Hraise : Py.getitem (slice_limits (sa_slice_thickness s)) index
                     = Raise IndexError).
    { unfold Py.getitem, Py.len. rewrite slice_limits_length.
      destruct (index <? 0)%Z eqn:En; [zbool; lia|].
      rewrite En. cbn [orb].
      destruct (Z.of_nat (length (sa_slice_thickness s)) <=? index)%Z eqn:El;
        [reflexivity | zbool; lia]. }
    rewrite Hraise in Hr. discriminate.
  - split; [|reflexivity]. intros _.
    assert (Hi : (Z.to_nat index < length (sa_slice_thickness s))%nat) by lia.
    unfold sa_get_atoms_in_slices.
    rewrite <- (Z2Nat.id index H0).
    rewrite (slice_limits_getitem _ Hi). cbn [bind].
    unfold cell_diag. cbn beta iota. eexists. reflexivity.
Qed.

Lemma check_slice_idx_guards_query_witness :
  exists r : Atoms,
    sa_get_atoms_in_slices (mkSlicedAtoms column10 [2; 3; 5] 0 0)
      2%Z None None = Ok r.
Proof.
  refine (proj1 (@check_slice_idx_guards_query
                   (mkSlicedAtoms column10 [2; 3; 5] 0 0) 2%Z None _) _).
  - lia.
  - reflexivity.
Defined.

End SliceIndexCheck.

(** * Properties under rounding *)

Unset Implicit Arguments.

(** ** Comparisons that agree with a total preorder *)

Section CoherentOrder.

Variable A : Rounded.arith.
Variable vals : list (Rounded.num A).
Hypothesis Hvals : Rounded.coherentb A vals = true.

Lemma coherent_pair (x y : Rounded.num A) :
  In x vals -> In y vals ->
  Rounded.ltb A x y = negb (Rounded.leb A y x) /\
  Rounded.eqb A x y = (Rounded.leb A x y && Rounded.leb A y x) /\
  (Rounded.leb A x y = true \/ Rounded.leb A y x = true) /\
  forall z, In z vals ->
            Rounded.leb A x y = true -> Rounded.leb A y z = true ->
            Rounded.leb A x z = true.
Proof.
  intros Hx Hy. unfold Rounded.coherentb in Hvals.
  rewrite forallb_forall in Hvals. specialize (Hvals x Hx).
  rewrite forallb_forall in Hvals. specialize (Hvals y Hy).
  apply andb_prop in Hvals. destruct Hvals as (H123 & H4).
  apply andb_prop in H123. destruct H123 as (H12 & H3).
  apply andb_prop in H12. destruct H12 as (H1 & H2).
  apply Bool.eqb_prop in H1. apply Bool.eqb_prop in H2.
  apply orb_prop in H3.
  split; [exact H1|]. split; [exact H2|]. split; [exact H3|].
  intros z Hz Hxy Hyz. rewrite forallb_forall in H4. specialize (H4 z Hz).
  rewrite Hxy, Hyz in H4. exact H4.
Qed.

Lemma le_trans_on (x y z : Rounded.num A) :
  In x vals -> In y vals -> In z vals ->
  Rounded.leb A x y = true -> Rounded.leb A y z = true ->
  Rounded.leb A x z = true.
Proof.
  intros Hx Hy Hz. destruct (coherent_pair x y Hx Hy) as (_ & _ & _ & Ht).
  now apply Ht.
Qed.

Lemma le_refl_on (x : Rounded.num A) :
  In x vals -> Rounded.leb A x x = true.
Proof.
  intros Hx. destruct (coherent_pair x x Hx Hx) as (_ & _ & [H|H] & _);
    exact H.
Qed.

Lemma lt_is_not_ge (x y : Rounded.num A) :
  In x vals -> In y vals ->
  Rounded.ltb A x y = negb (Rounded.leb A y x).
Proof.
  intros Hx Hy. now destruct (coherent_pair x y Hx Hy) as (H & _).
Qed.

Lemma lt_le_on (x y : Rounded.num A) :
  In x vals -> In y vals ->
  Rounded.ltb A x y = true -> Rounded.leb A x y = true.
Proof.
  intros Hx Hy Hlt. rewrite (lt_is_not_ge x y Hx Hy) in Hlt.
  apply negb_true_iff in Hlt.
  destruct (coherent_pair x y Hx Hy) as (_ & _ & [H|H] & _);
    [exact H | congruence].
Qed.

Lemma sortedb_tail (r : Rounded.num A -> Rounded.num A -> bool)
      (a : Rounded.num A) (l : list (Rounded.num A)) :
  Rounded.sortedb A r (a :: l) = true -> Rounded.sortedb A r l = true.
Proof.
  destruct l as [|b l]; [reflexivity|]. cbn [Rounded.sortedb].
  intros H. apply andb_prop in H. tauto.
Qed.

Lemma sortedb_nth (r : Rounded.num A -> Rounded.num A -> bool)
      (l : list (Rounded.num A)) (d : Rounded.num A) :
  Rounded.sortedb A r l = true ->
  forall i, (S i < length l)%nat -> r (nth i l d) (nth (S i) l d) = true.
Proof.
  induction l as [|a l IH]; intros Hs i Hi; [simpl in Hi; lia|].
  destruct l as [|b l]; [simpl in Hi; lia|].
  pose proof (sortedb_tail _ _ _ Hs) as Ht.
  cbn [Rounded.sortedb] in Hs. apply andb_prop in Hs. destruct Hs as (Hab & _).
  destruct i as [|i]; [exact Hab|].
  apply (IH Ht i). simpl in Hi |- *. lia.
Qed.

(** In bins that never decrease, the first is at most every other. *)
Lemma sorted_head_le (a : Rounded.num A) (l : list (Rounded.num A)) :
  incl (a :: l) vals ->
  Rounded.sortedb A (Rounded.leb A) (a :: l) = true ->
  forall b, In b l -> Rounded.leb A a b = true.
Proof.
  revert a. induction l as [|c l IH]; intros a Hin Hs b Hb; [destruct Hb|].
  pose proof (sortedb_tail _ _ _ Hs) as Ht.
  cbn [Rounded.sortedb] in Hs. apply andb_prop in Hs. destruct Hs as (Hac & _).
  destruct Hb as [<- | Hb]; [exact Hac|].
  apply (le_trans_on a c b).
  - apply Hin. now left.
  - apply Hin. right. now left.
  - apply Hin. right. now right.
  - exact Hac.
  - apply IH; [|exact Ht | exact Hb].
    intros x Hx. apply Hin. now right.
Qed.

Lemma sorted_strict_is_sorted (l : list (Rounded.num A)) :
  incl l vals ->
  Rounded.sortedb A (Rounded.ltb A) l = true ->
  Rounded.sortedb A (Rounded.leb A) l = true.
Proof.
  induction l as [|a l IH]; intros Hin Hs; [reflexivity|].
  destruct l as [|b l]; [reflexivity|].
  pose proof (sortedb_tail _ _ _ Hs) as Ht.
  cbn [Rounded.sortedb] in Hs |- *.
  apply andb_prop in Hs. destruct Hs as (Hab & _).
  apply andb_true_intro. split.
  - apply lt_le_on;
      [apply Hin; now left | apply Hin; right; now left | exact Hab].
  - apply IH; [|exact Ht]. intros x Hx. apply Hin. now right.
Qed.

(** [searchsorted] against bins that never decrease: entry [i] is
    before the landing place exactly when it is at most [z]. *)
Lemma searchsorted_sorted (bins : list (Rounded.num A)) (z d : Rounded.num A) :
  incl bins vals -> In z vals ->
  Rounded.sortedb A (Rounded.leb A) bins = true ->
  forall i, (i < length bins)%nat ->
    (i < Rounded.searchsorted_right A bins z)%nat <->
    Rounded.leb A (nth i bins d) z = true.
Proof.
  intros Hin Hz. induction bins as [|a l IH]; intros Hs i Hi;
    [simpl in Hi; lia|].
  assert (Ha : In a vals) by (apply Hin; now left).
  assert (Hl : incl l vals) by (intros x Hx; apply Hin; now right).
  unfold Rounded.searchsorted_right in *. cbn [filter].
  rewrite (lt_is_not_ge z a Hz Ha), negb_involutive.
  destruct (Rounded.leb A a z) eqn:Eaz.
  - cbn [length]. destruct i as [|i].
    + cbn [nth]. rewrite Eaz. split; [reflexivity | lia].
    + cbn [nth].
      rewrite <- (IH Hl (sortedb_tail _ _ _ Hs) i) by (simpl in Hi; lia).
      lia.
  - assert (Hnone : forall b, In b l -> Rounded.leb A b z = false).
    { intros b Hb. destruct (Rounded.leb A b z) eqn:Ebz; [|reflexivity].
      rewrite <- Eaz. symmetry.
      apply (le_trans_on a b z Ha (Hl b Hb) Hz); [|exact Ebz].
      now apply (sorted_head_le _ _ Hin Hs). }
    assert (Hempty : filter (fun b => negb (Rounded.ltb A z b)) l = []).
    { clear IH Hs Hi. induction l as [|b l IHl]; [reflexivity|].
      cbn [filter].
      rewrite (lt_is_not_ge z b Hz (Hl b (or_introl eq_refl))), negb_involutive.
      rewrite (Hnone b (or_introl eq_refl)).
      apply IHl.
      - intros x Hx. apply Hin. destruct Hx as [<-|Hx]; [now left|].
        right. now right.
      - intros x Hx. apply Hl. now right.
      - intros x Hx. apply Hnone. now right. }
    rewrite Hempty. cbn [length]. split; [lia|].
    destruct i as [|i]; cbn [nth]; [congruence|].
    rewrite Hnone; [discriminate|]. apply nth_In. simpl in Hi. lia.
Qed.

Lemma searchsorted_le_length (bins : list (Rounded.num A)) (z : Rounded.num A) :
  (Rounded.searchsorted_right A bins z <= length bins)%nat.
Proof.
  unfold Rounded.searchsorted_right. apply filter_length_le.
Qed.

Lemma no_step_sorted (a : Rounded.num A) (l : list (Rounded.num A)) :
  incl (a :: l) vals ->
  Rounded.sortedb A (Rounded.leb A) (a :: l) = true ->
  Rounded.no_step A (fun x y => Rounded.ltb A y x) a l = true.
Proof.
  revert a. induction l as [|b l IH]; intros a Hin Hs; [reflexivity|].
  pose proof (sortedb_tail _ _ _ Hs) as Ht.
  cbn [Rounded.sortedb] in Hs. apply andb_prop in Hs. destruct Hs as (Hab & _).
  cbn [Rounded.no_step].
  rewrite (lt_is_not_ge b a) by (apply Hin; simpl; tauto).
  rewrite Hab. cbn [negb]. apply IH; [|exact Ht].
  intros x Hx. apply Hin. now right.
Qed.

Lemma skip_equal_sorted (first : Rounded.num A) (rest : list (Rounded.num A)) :
  incl (first :: rest) vals ->
  Rounded.sortedb A (Rounded.leb A) (first :: rest) = true ->
  match Rounded.skip_equal A first rest with
  | [] => True
  | next :: more =>
      Rounded.ltb A first next = true /\
      incl (next :: more) vals /\
      Rounded.sortedb A (Rounded.leb A) (next :: more) = true
  end.
Proof.
  induction rest as [|b r IH]; intros Hin Hs; [exact I|].
  assert (Hf : In first vals) by (apply Hin; now left).
  assert (Hb : In b vals) by (apply Hin; right; now left).
  pose proof (sortedb_tail _ _ _ Hs) as Ht.
  assert (Hfb : Rounded.leb A first b = true).
  { apply (sorted_head_le _ _ Hin Hs). now left. }
  cbn [Rounded.skip_equal].
  destruct (Rounded.eqb A b first) eqn:Eb.
  - apply IH.
    + intros x [<-|Hx]; [exact Hf|]. apply Hin. right. now right.
    + destruct r as [|c r]; [reflexivity|].
      cbn [Rounded.sortedb]. apply andb_true_intro. split.
      * apply (sorted_head_le _ _ Hin Hs). right. now left.
      * exact (sortedb_tail _ _ _ Ht).
  - split; [|split].
    + rewrite (lt_is_not_ge first b Hf Hb).
      destruct (coherent_pair b first Hb Hf) as (_ & He & _).
      rewrite He, Hfb, andb_true_r in Eb. now rewrite Eb.
    + intros x Hx. apply Hin. now right.
    + exact Ht.
Qed.

(** Bins that never decrease pass the check of [np.digitize] as
    increasing. *)
Lemma monotonicity_sorted (bins : list (Rounded.num A)) :
  incl bins vals ->
  Rounded.sortedb A (Rounded.leb A) bins = true ->
  Rounded.monotonicity A bins = 1%Z.
Proof.
  intros Hin Hs. destruct bins as [|first rest]; [reflexivity|].
  unfold Rounded.monotonicity.
  pose proof (skip_equal_sorted _ _ Hin Hs) as Hk.
  destruct (Rounded.skip_equal A first rest) as [|next more]; [reflexivity|].
  destruct Hk as (Hlt & Hin' & Hs'). rewrite Hlt.
  now rewrite (no_step_sorted _ _ Hin' Hs').
Qed.

Lemma digitize_sorted (xs bins : list (Rounded.num A)) :
  incl bins vals ->
  Rounded.sortedb A (Rounded.leb A) bins = true ->
  Rounded.digitize A xs bins
  = Ok (map (Rounded.searchsorted_right A bins) xs).
Proof.
  intros Hin Hs. unfold Rounded.digitize.
  now rewrite (monotonicity_sorted _ Hin Hs).
Qed.

End CoherentOrder.

(** ** The constructor of SliceIndexedAtoms under rounding *)

Section RoundedConstructor.

Variable A : Rounded.arith.

Lemma last_is_nth {X : Type} (l : list X) (d : X) :
  last l d = nth (length l - 1) l d.
Proof.
  induction l as [|a l IH]; [reflexivity|].
  destruct l as [|b l]; [reflexivity|].
  change (last (a :: b :: l) d) with (last (b :: l) d). rewrite IH.
  simpl. now rewrite Nat.sub_0_r.
Qed.

(** The fuel of [pairwise_sum] is never used up: any two amounts of at
    least the length of the list give the same sum. *)
Lemma rounded_pairwise_sum_fuel :
  forall (f1 f2 : nat) (l : list (Rounded.num A)),
    (length l <= f1)%nat -> (length l <= f2)%nat ->
    Rounded.pairwise_sum A f1 l = Rounded.pairwise_sum A f2 l.
Proof.
  induction f1 as [|f1 IH]; intros f2 l H1 H2.
  - destruct l; [|simpl in H1; lia]. now destruct f2.
  - destruct f2 as [|f2].
    + destruct l; [|simpl in H2; lia]. reflexivity.
    + cbn [Rounded.pairwise_sum]. cbv zeta.
      destruct (length l <? 8)%nat eqn:E8; [reflexivity|].
      destruct (length l <=? 128)%nat eqn:E128; [reflexivity|].
      apply Nat.ltb_ge in E8. apply Nat.leb_gt in E128.
      set (n := length l) in *.
      pose proof (Nat.div_mod_eq n 2) as Hd.
      pose proof (Nat.mod_upper_bound n 2 ltac:(lia)) as Hm.
      pose proof (Nat.div_mod_eq (n / 2) 8) as Hd8.
      pose proof (Nat.mod_upper_bound (n / 2) 8 ltac:(lia)) as Hm8.
      set (n2 := (n / 2 - (n / 2) mod 8)%nat) in *.
      assert (Hn2 : (1 <= n2 <= n - 1)%nat) by (subst n2; lia).
      f_equal; apply IH.
      * rewrite length_firstn. fold n. lia.
      * rewrite length_firstn. fold n. lia.
      * rewrite length_skipn. fold n. lia.
      * rewrite length_skipn. fold n. lia.
Qed.

Lemma rounded_accumulate_from_length (l : list (Rounded.num A)) :
  forall a, length (Rounded.accumulate_from A a l) = length l.
Proof.
  induction l as [|x l IH]; intros a; simpl; [reflexivity|].
  now rewrite IH.
Qed.

Lemma rounded_cumsum_length (ts : list (Rounded.num A)) :
  length (Rounded.cumsum A ts) = length ts.
Proof.
  destruct ts as [|t r]; [reflexivity|].
  unfold Rounded.cumsum, Rounded.accumulate. simpl.
  now rewrite rounded_accumulate_from_length.
Qed.

(** What the checks of [_validate_slice_thickness] leave behind. *)
Lemma rounded_validate_ok (v : Rounded.thickness_value (Rounded.num A))
      (h : Rounded.num A) (ts : list (Rounded.num A)) :
  Rounded._validate_slice_thickness A v (Some h) None = Ok ts ->
  Rounded.isclose A (Rounded.sum A ts) h = true /\
  match v with
  | Rounded.Number t =>
      let n := Rounded.ceil A (Rounded.div A h t) in
      exists k : Z,
        Rounded.to_int A n = Ok k /\
        (- 2 ^ 63 <= k <= 2 ^ 63 - 1)%Z /\
        ts = repeat (Rounded.div A h n) (Z.to_nat k)
  | Rounded.Sequence ds => ts = ds
  end.
Proof.
  unfold Rounded._validate_slice_thickness.
  match goal with |- bind ?first _ = _ -> _ =>
    destruct first as [l|e] eqn:Efirst end; cbn [bind]; [|discriminate].
  destruct (Rounded.isclose A (Rounded.sum A l) h) eqn:Hc; cbn [negb bind];
    [|discriminate].
  intros [= <-]. split; [exact Hc|].
  destruct v as [t|ds].
  - destruct (Rounded.eqb A t (Rounded.zero A)); [discriminate|].
    cbv zeta in Efirst.
    destruct (Rounded.eqb A (Rounded.ceil A (Rounded.div A h t))
                (Rounded.zero A)); [discriminate|].
    destruct (Rounded.to_int A (Rounded.ceil A (Rounded.div A h t)))
      as [k|e] eqn:Ek; cbn [bind] in Efirst; [|discriminate].
    unfold Rounded.tuple_repeat in Efirst.
    destruct ((k <? - 2 ^ 63) || (2 ^ 63 - 1 <? k))%Z eqn:Er;
      [discriminate|].
    apply orb_false_elim in Er. destruct Er as (Er1 & Er2).
    apply Z.ltb_ge in Er1, Er2.
    injection Efirst as <-. exists k.
    split; [reflexivity|]. split; [split; assumption | reflexivity].
  - now injection Efirst as <-.
Qed.

(** What a successful construction establishes. *)
Lemma rounded_init_ok (atoms : Rounded.Atoms (Rounded.num A))
      (arg : Rounded.thickness_arg (Rounded.num A))
      (s : Rounded.SliceIndexedAtoms (Rounded.num A)) :
  Rounded.SliceIndexedAtoms_init A atoms arg = Ok s ->
  Rounded.sia_atoms s = atoms /\
  Rounded.isclose A (Rounded.sum A (Rounded.sia_slice_thickness s))
                  (Rounded.cell_zz atoms) = true /\
  exists labels : list nat,
    Rounded.digitize A (Rounded.positions_z atoms)
                     (Rounded.cumsum A (Rounded.sia_slice_thickness s))
    = Ok labels /\
    Rounded.sia_slice_index s
    = label_to_index labels (Py.len (Rounded.sia_slice_thickness s) - 1).
Proof.
  unfold Rounded.SliceIndexedAtoms_init, Rounded.BaseSlicedAtoms_init.
  destruct (Rounded.is_cell_orthogonal A atoms); cbn [negb bind];
    [|discriminate].
  destruct arg as [|v]; cbn [bind]; [discriminate|].
  destruct (Rounded._validate_slice_thickness A v
              (Some (Rounded.cell_zz atoms)) None) as [ts|e] eqn:Ev;
    cbn [bind]; [|discriminate].
  destruct (Rounded.digitize A (Rounded.positions_z atoms)
              (Rounded.cumsum A ts)) as [labels|e] eqn:Ed;
    cbn [bind]; [|discriminate].
  intros [= <-]. cbn. split; [reflexivity|]. split.
  - now destruct (rounded_validate_ok _ _ _ Ev).
  - exists labels. split; [exact Ed | reflexivity].
Qed.

(** With bin edges that never decrease, bucket [k] lists the atoms whose
    height lands at [k] in the edges. *)
Lemma rounded_bucket_In (atoms : Rounded.Atoms (Rounded.num A))
      (arg : Rounded.thickness_arg (Rounded.num A))
      (s : Rounded.SliceIndexedAtoms (Rounded.num A)) :
  Rounded.SliceIndexedAtoms_init A atoms arg = Ok s ->
  let bins := Rounded.cumsum A (Rounded.sia_slice_thickness s) in
  let zs := Rounded.positions_z atoms in
  Rounded.coherentb A (zs ++ bins) = true ->
  Rounded.sortedb A (Rounded.leb A) bins = true ->
  length (Rounded.sia_slice_index s)
  = length (Rounded.sia_slice_thickness s) /\
  forall k j : nat,
    In j (nth k (Rounded.sia_slice_index s) []) <->
    (k < length (Rounded.sia_slice_thickness s))%nat /\
    exists z : Rounded.num A,
      nth_error zs j = Some z /\ Rounded.searchsorted_right A bins z = k.
Proof.
  intros Hs bins zs Hc Hsorted.
  destruct (rounded_init_ok _ _ _ Hs) as (_ & _ & labels & Hd & Hi).
  fold bins zs in Hd.
  rewrite (digitize_sorted A (zs ++ bins) Hc) in Hd;
    [| intros x Hx; apply in_or_app; now right | exact Hsorted].
  injection Hd as <-. rewrite Hi.
  assert (Hlen : length (label_to_index
                           (map (Rounded.searchsorted_right A bins) zs)
                           (Py.len (Rounded.sia_slice_thickness s) - 1))
                 = length (Rounded.sia_slice_thickness s)).
  { rewrite label_to_index_length. unfold Py.len. lia. }
  split; [exact Hlen|].
  intros k j.
  destruct (Nat.lt_ge_cases k (length (Rounded.sia_slice_thickness s)))
    as [Hk|Hk].
  - rewrite label_to_index_In by (unfold Py.len; lia).
    rewrite length_map. split.
    + intros (Hj & Hl). split; [exact Hk|].
      destruct (nth_error zs j) as [z|] eqn:Ez.
      * exists z. split; [reflexivity|].
        rewrite <- Hl. symmetry.
        apply (nth_error_nth _ _ 0%nat). now rewrite nth_error_map, Ez.
      * apply nth_error_None in Ez. lia.
    + intros (_ & z & Ez & Hl). split.
      * apply nth_error_Some. congruence.
      * rewrite <- Hl.
        apply (nth_error_nth _ _ 0%nat). now rewrite nth_error_map, Ez.
  - rewrite nth_overflow by (rewrite Hlen; exact Hk).
    split; [intros [] | intros (Hk' & _); lia].
Qed.

(** With bin edges that never decrease, the atoms below the last edge
    are those that land at a slice index. *)
Lemma rounded_below_last_edge (atoms : Rounded.Atoms (Rounded.num A))
      (ts : list (Rounded.num A)) :
  let bins := Rounded.cumsum A ts in
  let zs := Rounded.positions_z atoms in
  ts <> [] ->
  Rounded.coherentb A (zs ++ bins) = true ->
  Rounded.sortedb A (Rounded.leb A) bins = true ->
  forall (j : nat) (z : Rounded.num A),
    nth_error zs j = Some z ->
    (Rounded.ltb A z (last bins (Rounded.zero A)) = true <->
     (Rounded.searchsorted_right A bins z < length ts)%nat).
Proof.
  intros bins zs Hne Hc Hsorted j z Hj.
  set (vals := zs ++ bins) in *.
  set (T := last bins (Rounded.zero A)).
  assert (Hbins : incl bins vals)
    by (intros x Hx; apply in_or_app; now right).
  assert (Hlen : length bins = length ts) by apply rounded_cumsum_length.
  assert (HN : (0 < length ts)%nat).
  { destruct ts; [congruence | simpl; lia]. }
  assert (HT : T = nth (length ts - 1) bins (Rounded.zero A)).
  { subst T. rewrite last_is_nth. now rewrite Hlen. }
  assert (HTv : In T vals).
  { rewrite HT. apply Hbins, nth_In. lia. }
  assert (Hzv : In z vals).
  { apply in_or_app. left. eapply nth_error_In; eauto. }
  rewrite (lt_is_not_ge A vals Hc z T Hzv HTv), negb_true_iff.
  pose proof (searchsorted_sorted A vals Hc bins z (Rounded.zero A)
                Hbins Hzv Hsorted (length ts - 1)%nat ltac:(lia)) as Hss.
  rewrite <- HT in Hss.
  pose proof (searchsorted_le_length A bins z) as Hle.
  split.
  - intros HTz.
    destruct (Nat.lt_ge_cases (Rounded.searchsorted_right A bins z)
                (length ts)) as [H|H]; [exact H|].
    assert (Hlt : (length ts - 1
                   < Rounded.searchsorted_right A bins z)%nat) by lia.
    apply Hss in Hlt. congruence.
  - intros Hlt. apply not_true_is_false. intros E. apply Hss in E. lia.
Qed.

(** With bin edges that never decrease, the buckets together hold the
    atoms below the last edge. *)
Lemma rounded_union_of_buckets (atoms : Rounded.Atoms (Rounded.num A))
      (arg : Rounded.thickness_arg (Rounded.num A))
      (s : Rounded.SliceIndexedAtoms (Rounded.num A)) :
  Rounded.SliceIndexedAtoms_init A atoms arg = Ok s ->
  let bins := Rounded.cumsum A (Rounded.sia_slice_thickness s) in
  let zs := Rounded.positions_z atoms in
  Rounded.sia_slice_thickness s <> [] ->
  Rounded.coherentb A (zs ++ bins) = true ->
  Rounded.sortedb A (Rounded.leb A) bins = true ->
  forall j : nat,
    In j (concat (Rounded.sia_slice_index s)) <->
    exists z : Rounded.num A,
      nth_error zs j = Some z /\
      Rounded.ltb A z (last bins (Rounded.zero A)) = true.
Proof.
  intros Hs bins zs Hne Hc Hsorted j.
  destruct (rounded_bucket_In atoms arg s Hs Hc Hsorted) as (Hidx & Hin).
  pose proof (rounded_below_last_edge atoms _ Hne Hc Hsorted) as Hbelow.
  rewrite in_concat_nth. split.
  - intros (k & Hk & Hj). apply Hin in Hj.
    destruct Hj as (Hk' & z & Hz & Hl). exists z. split; [exact Hz|].
    apply (Hbelow j z Hz). rewrite Hl. exact Hk'.
  - intros (z & Hz & Hlt). apply (Hbelow j z Hz) in Hlt.
    exists (Rounded.searchsorted_right A bins z).
    split; [rewrite Hidx; exact Hlt|].
    apply Hin. split; [exact Hlt|]. exists z.
    split; [exact Hz | reflexivity].
Qed.

End RoundedConstructor.

(** ** Thickness resolution and binning under rounding *)

Section RoundedClaims.

Import PrimFloat.
#[local] Set Warnings "-inexact-float".

(** C5, as stated, fails in binary64: thickness 0.3 for height 0.9
    resolves to three slabs of 0.3, whose sum is 0.8999999999999999. *)
Lemma equal_split_sum_is_rounded :
  exists l : list float,
    Rounded._validate_slice_thickness Rounded.binary64
      (Rounded.Number 0.3%float) (Some 0.9%float) None
    = Ok l /\
    l = [0.3; 0.3; 0.3]%float /\
    Rounded.sum Rounded.binary64 l = 0.8999999999999999%float /\
    Rounded.eqb Rounded.binary64 (Rounded.sum Rounded.binary64 l) 0.9%float
    = false.
Proof.
  eexists. split; [vm_compute; reflexivity|].
  split; [reflexivity|]. split; vm_compute; reflexivity.
Qed.

(** C5, amended.  In any arithmetic, a single numeric thickness [t] with
    a total height [h] resolves exactly when [t] and [n = ceil(h / t)]
    are nonzero, [int(n)] exists and fits an index, and the sum of
    [int(n)] slabs of thickness [h / n] passes [np.isclose] against [h];
    the result is then those slabs.  The sum is close to [h], not equal
    to it.  In binary64, 3.0 with height 10.0 gives 4 slabs of 2.5 that
    sum to 10.0. *)
Theorem rounded_single_number :
  (forall (A : Rounded.arith) (t h : Rounded.num A)
          (l : list (Rounded.num A)),
     let n := Rounded.ceil A (Rounded.div A h t) in
     Rounded._validate_slice_thickness A (Rounded.Number t) (Some h) None
     = Ok l <->
     Rounded.eqb A t (Rounded.zero A) = false /\
     Rounded.eqb A n (Rounded.zero A) = false /\
     exists k : Z,
       Rounded.to_int A n = Ok k /\
       (- 2 ^ 63 <= k <= 2 ^ 63 - 1)%Z /\
       l = repeat (Rounded.div A h n) (Z.to_nat k) /\
       Rounded.isclose A (Rounded.sum A l) h = true) /\
  (Rounded.ceil Rounded.binary64 (10 / 3)%float = 4%float /\
   Rounded._validate_slice_thickness Rounded.binary64
     (Rounded.Number 3%float) (Some 10%float) None
   = Ok [2.5; 2.5; 2.5; 2.5]%float /\
   Rounded.sum Rounded.binary64 [2.5; 2.5; 2.5; 2.5]%float = 10%float).
Proof.
  split.
  - intros A t h l n. unfold Rounded._validate_slice_thickness.
    fold n. split.
    + destruct (Rounded.eqb A t (Rounded.zero A)); cbn [bind];
        [discriminate|].
      destruct (Rounded.eqb A n (Rounded.zero A)); cbn [bind];
        [discriminate|].
      destruct (Rounded.to_int A n) as [k|e]; cbn [bind]; [|discriminate].
      unfold Rounded.tuple_repeat.
      destruct ((k <? - 2 ^ 63) || (2 ^ 63 - 1 <? k))%Z eqn:Er;
        cbn [bind]; [discriminate|].
      apply orb_false_elim in Er. destruct Er as (Er1 & Er2).
      apply Z.ltb_ge in Er1, Er2.
      destruct (Rounded.isclose A
                  (Rounded.sum A (Py.tuple_repeat (Rounded.div A h n) k)) h)
        eqn:Hc; cbn [negb bind]; [|discriminate].
      intros [= <-]. split; [reflexivity|]. split; [reflexivity|].
      exists k. split; [reflexivity|]. split; [lia|].
      split; [reflexivity | exact Hc].
    + intros (Ht & Hn & k & Hk & Hr & -> & Hc).
      rewrite Ht, Hn, Hk. cbn [bind]. unfold Rounded.tuple_repeat.
      replace ((k <? - 2 ^ 63) || (2 ^ 63 - 1 <? k))%Z with false
        by (symmetry; apply orb_false_intro; apply Z.ltb_ge; lia).
      cbn [bind]. unfold Py.tuple_repeat. rewrite Hc. reflexivity.
  - repeat (split; [vm_compute; reflexivity|]). vm_compute. reflexivity.
Qed.

Lemma rounded_single_number_witness :
  Rounded.ceil Rounded.binary64 (0.9 / 0.3)%float = 3%float /\
  Rounded._validate_slice_thickness Rounded.binary64
    (Rounded.Number 0.3%float) (Some 0.9%float) None
  = Ok [0.3; 0.3; 0.3]%float.
Proof.
  split; [vm_compute; reflexivity|].
  apply (proj2 (proj1 rounded_single_number Rounded.binary64
                  0.3%float 0.9%float [0.3; 0.3; 0.3]%float)).
  split; [vm_compute; reflexivity|].
  split; [vm_compute; reflexivity|].
  exists 3%Z. split; [vm_compute; reflexivity|].
  split; [lia|]. split; vm_compute; reflexivity.
Defined.

(** C1, as stated, fails in binary64: with the positive thicknesses
    [2^53, 1, 1] in a box of height [2^53 + 2] the running sums absorb
    the two thin slabs, every bin edge is 2^53, and the atom at 2^53, on
    the boundary between slab 0 and slab 1 and below the box height, is
    in no bucket. *)
Lemma absorbed_thickness_drops_boundary_atom :
  exists s : Rounded.SliceIndexedAtoms float,
    Rounded.SliceIndexedAtoms_init Rounded.binary64
      (Rounded.F64.column [9007199254740992%float] 9007199254740994%float)
      (Rounded.ArgValue (Rounded.Sequence [9007199254740992; 1; 1]%float))
    = Ok s /\
    forallb (fun t => 0 <? t)%float (Rounded.sia_slice_thickness s) = true /\
    nth 1 (Rounded.slice_limits Rounded.binary64
             (Rounded.sia_slice_thickness s)) (0, 0)%float
    = (9007199254740992, 9007199254740992)%float /\
    (9007199254740992 <? 9007199254740994)%float = true /\
    Rounded.sia_slice_index s = [[]; []; []].
Proof.
  eexists. split; [vm_compute; reflexivity|].
  repeat (split; [vm_compute; reflexivity|]). vm_compute. reflexivity.
Qed.

(** C1, amended.  When the bin edges [np.cumsum(slice_thickness)] are
    strictly increasing, an atom whose height equals the edge between
    slab [k - 1] and slab [k] is in bucket [k] and not in bucket
    [k - 1].  In binary64, for height 10.0 and thicknesses
    [2.0, 3.0, 5.0] the atom at 2.0 is in bucket 1. *)
Theorem rounded_boundary_atom :
  (forall (A : Rounded.arith) (atoms : Rounded.Atoms (Rounded.num A))
          (arg : Rounded.thickness_arg (Rounded.num A))
          (s : Rounded.SliceIndexedAtoms (Rounded.num A)),
     Rounded.SliceIndexedAtoms_init A atoms arg = Ok s ->
     let bins := Rounded.cumsum A (Rounded.sia_slice_thickness s) in
     let zs := Rounded.positions_z atoms in
     Rounded.coherentb A (zs ++ bins) = true ->
     Rounded.sortedb A (Rounded.ltb A) bins = true ->
     forall (k j : nat) (z : Rounded.num A),
       (0 < k < length (Rounded.sia_slice_thickness s))%nat ->
       nth_error zs j = Some z ->
       Rounded.eqb A z (nth (k - 1) bins (Rounded.zero A)) = true ->
       In j (nth k (Rounded.sia_slice_index s) []) /\
       ~ In j (nth (k - 1) (Rounded.sia_slice_index s) [])) /\
  (exists s : Rounded.SliceIndexedAtoms float,
     Rounded.SliceIndexedAtoms_init Rounded.binary64
       (Rounded.F64.column [2%float] 10%float)
       (Rounded.ArgValue (Rounded.Sequence [2; 3; 5]%float))
     = Ok s /\
     Rounded.slice_limits Rounded.binary64 (Rounded.sia_slice_thickness s)
     = [(0, 2); (2, 5); (5, 10)]%float /\
     Rounded.cumsum Rounded.binary64 (Rounded.sia_slice_thickness s)
     = [2; 5; 10]%float /\
     Rounded.sia_slice_index s = [[]; [0%nat]; []]).
Proof.
  split.
  - intros A atoms arg s Hs bins zs Hc Hstrict k j z Hk Hj Hz.
    set (vals := zs ++ bins) in *.
    assert (Hbins : incl bins vals)
      by (intros x Hx; apply in_or_app; now right).
    assert (Hzv : In z vals).
    { apply in_or_app. left. eapply nth_error_In; eauto. }
    assert (Hlen : length bins = length (Rounded.sia_slice_thickness s))
      by apply rounded_cumsum_length.
    pose proof (sorted_strict_is_sorted A vals Hc bins Hbins Hstrict)
      as Hsorted.
    set (e := nth (k - 1) bins (Rounded.zero A)) in *.
    set (e' := nth k bins (Rounded.zero A)).
    assert (He : In e vals) by (apply Hbins, nth_In; lia).
    assert (He' : In e' vals) by (apply Hbins, nth_In; lia).
    destruct (coherent_pair A vals Hc z e Hzv He) as (_ & Heq & _).
    rewrite Heq in Hz. apply andb_prop in Hz. destruct Hz as (Hze & Hez).
    assert (Hstep : Rounded.ltb A e e' = true).
    { pose proof (sortedb_nth A _ bins (Rounded.zero A) Hstrict (k - 1)) as H.
      replace (S (k - 1)) with k in H by lia. apply H. lia. }
    rewrite (lt_is_not_ge A vals Hc e e' He He') in Hstep.
    apply negb_true_iff in Hstep.
    assert (He'z : Rounded.leb A e' z = false).
    { destruct (Rounded.leb A e' z) eqn:E; [|reflexivity].
      rewrite <- Hstep. symmetry.
      exact (le_trans_on A vals Hc e' z e He' Hzv He E Hze). }
    pose proof (searchsorted_sorted A vals Hc bins z (Rounded.zero A)
                  Hbins Hzv Hsorted) as Hss.
    assert (Hlabel : Rounded.searchsorted_right A bins z = k).
    { pose proof (proj2 (Hss (k - 1)%nat ltac:(lia)) Hez) as Hlo.
      pose proof (Hss k ltac:(lia)) as Hhi. fold e' in Hhi.
      rewrite He'z in Hhi.
      destruct (Nat.lt_ge_cases k (Rounded.searchsorted_right A bins z))
        as [Hlt|Hge]; [apply Hhi in Hlt; discriminate | lia]. }
    destruct (rounded_bucket_In A atoms arg s Hs Hc Hsorted) as (_ & Hin).
    split.
    + apply Hin. split; [lia|]. exists z. split; assumption.
    + intros Hbad. apply Hin in Hbad. destruct Hbad as (_ & z' & Hz' & Hl).
      pose proof (eq_trans (eq_sym Hz') Hj) as E. injection E as ->.
      fold bins in Hl. lia.
  - eexists. split; [vm_compute; reflexivity|].
    repeat (split; [vm_compute; reflexivity|]). vm_compute. reflexivity.
Qed.

Lemma rounded_boundary_atom_witness :
  exists s : Rounded.SliceIndexedAtoms float,
    Rounded.SliceIndexedAtoms_init Rounded.binary64
      (Rounded.F64.column [0.5; 0.7999999999999999; 0.9]%float 1%float)
      (Rounded.ArgValue (Rounded.Sequence [0.1; 0.7; 0.2]%float))
    = Ok s /\
    In 1%nat (nth 2 (Rounded.sia_slice_index s) []) /\
    ~ In 1%nat (nth (2 - 1) (Rounded.sia_slice_index s) []).
Proof.
  destruct (Rounded.SliceIndexedAtoms_init Rounded.binary64
              (Rounded.F64.column [0.5; 0.7999999999999999; 0.9]%float 1%float)
              (Rounded.ArgValue (Rounded.Sequence [0.1; 0.7; 0.2]%float)))
    as [s|e] eqn:Es; [|vm_compute in Es; discriminate Es].
  exists s. split; [reflexivity|].
  assert (Ets : Rounded.sia_slice_thickness s = [0.1; 0.7; 0.2]%float).
  { vm_compute in Es. injection Es as <-. reflexivity. }
  refine (proj1 rounded_boundary_atom Rounded.binary64 _ _ s Es _ _
            2%nat 1%nat 0.7999999999999999%float _ _ _).
  - rewrite Ets. vm_compute. reflexivity.
  - rewrite Ets. vm_compute. reflexivity.
  - rewrite Ets. simpl. lia.
  - reflexivity.
  - rewrite Ets. vm_compute. reflexivity.
Defined.

(** C3, as stated, fails in binary64, where the buckets are cut at the
    last running sum and not at the box height.  Thickness 0.1 for a box
    of height 1.0 resolves to ten slabs of 0.1 whose running sums end at
    0.9999999999999999, and an atom at that height, inside
    [[0, box.z)], is in no bucket.  Thicknesses [2, 3, 5.00000001] pass
    the check against the box height 10.0, and an atom at the box height
    is in the last bucket. *)
Lemma bucket_cut_is_not_the_box_height :
  (exists s : Rounded.SliceIndexedAtoms float,
     Rounded.SliceIndexedAtoms_init Rounded.binary64
       (Rounded.F64.column [0.9999999999999999%float] 1%float)
       (Rounded.ArgValue (Rounded.Number 0.1%float))
     = Ok s /\
     (0 <=? 0.9999999999999999)%float = true /\
     (0.9999999999999999 <? 1)%float = true /\
     Rounded.sum Rounded.binary64 (Rounded.sia_slice_thickness s)
     = 1%float /\
     last (Rounded.cumsum Rounded.binary64 (Rounded.sia_slice_thickness s))
          0%float
     = 0.9999999999999999%float /\
     length (Rounded.sia_slice_index s) = 10%nat /\
     concat (Rounded.sia_slice_index s) = []) /\
  (exists s : Rounded.SliceIndexedAtoms float,
     Rounded.SliceIndexedAtoms_init Rounded.binary64
       (Rounded.F64.column [10%float] 10%float)
       (Rounded.ArgValue (Rounded.Sequence [2; 3; 5.00000001]%float))
     = Ok s /\
     Rounded.cell_zz (Rounded.sia_atoms s) = 10%float /\
     Rounded.sia_slice_index s = [[]; []; [0%nat]]).
Proof.
  split.
  - eexists. split; [vm_compute; reflexivity|].
    repeat (split; [vm_compute; reflexivity|]). vm_compute. reflexivity.
  - eexists. split; [vm_compute; reflexivity|].
    split; vm_compute; reflexivity.
Qed.

(** C3, amended.  The buckets partition the atoms below the last bin
    edge [T], the last entry of [np.cumsum(slice_thickness)]; the box
    height enters only through the [np.isclose] check on the sum.  For
    one slice or more and bin edges that never decrease: there is one
    bucket per slice, no bucket lists an index twice, an atom with
    [z < T] is in exactly one bucket, an atom that is not below [T] is
    in none, and the union of the buckets is the set of the atoms below
    [T]. *)
Theorem rounded_bucket_partition :
  forall (A : Rounded.arith) (atoms : Rounded.Atoms (Rounded.num A))
         (arg : Rounded.thickness_arg (Rounded.num A))
         (s : Rounded.SliceIndexedAtoms (Rounded.num A)),
    Rounded.SliceIndexedAtoms_init A atoms arg = Ok s ->
    let ts := Rounded.sia_slice_thickness s in
    let bins := Rounded.cumsum A ts in
    let zs := Rounded.positions_z atoms in
    let idx := Rounded.sia_slice_index s in
    let T := last bins (Rounded.zero A) in
    ts <> [] ->
    Rounded.coherentb A (zs ++ bins) = true ->
    Rounded.sortedb A (Rounded.leb A) bins = true ->
    Rounded.isclose A (Rounded.sum A ts) (Rounded.cell_zz atoms) = true /\
    length idx = length ts /\
    (forall k : nat, NoDup (nth k idx [])) /\
    (forall (j : nat) (z : Rounded.num A),
       nth_error zs j = Some z ->
       Rounded.ltb A z T = true ->
       exists k : nat,
         (k < length ts)%nat /\ In j (nth k idx []) /\
         forall k' : nat, In j (nth k' idx []) -> k' = k) /\
    (forall (j : nat) (z : Rounded.num A),
       nth_error zs j = Some z ->
       Rounded.ltb A z T = false ->
       forall k : nat, ~ In j (nth k idx [])) /\
    (forall j : nat,
       In j (concat idx) <->
       exists z : Rounded.num A,
         nth_error zs j = Some z /\ Rounded.ltb A z T = true).
Proof.
  intros A atoms arg s Hs ts bins zs idx T Hne Hc Hsorted.
  destruct (rounded_init_ok A _ _ _ Hs) as (_ & Hclose & labels & _ & Hi).
  destruct (rounded_bucket_In A atoms arg s Hs Hc Hsorted) as (Hidx & Hin).
  pose proof (rounded_below_last_edge A atoms ts Hne Hc Hsorted) as Hbelow.
  fold ts bins zs idx in Hidx, Hin, Hi, Hclose. fold bins zs T in Hbelow.
  split; [exact Hclose|]. split; [exact Hidx|]. split.
  { intros k. subst idx. rewrite Hi. apply label_to_index_NoDup. }
  split; [|split].
  - intros j z Hj Hlt. apply (Hbelow j z Hj) in Hlt.
    exists (Rounded.searchsorted_right A bins z).
    split; [exact Hlt|]. split.
    + apply Hin. split; [exact Hlt|]. exists z.
      split; [exact Hj | reflexivity].
    + intros k' Hk'. apply Hin in Hk'.
      destruct Hk' as (_ & z' & Hz' & Hl).
      pose proof (eq_trans (eq_sym Hz') Hj) as E. injection E as ->.
      now symmetry.
  - intros j z Hj Hge k Hk. apply Hin in Hk.
    destruct Hk as (Hk & z' & Hz' & Hl).
    pose proof (eq_trans (eq_sym Hz') Hj) as E. injection E as ->.
    assert (Hlt : Rounded.ltb A z T = true).
    { apply (Hbelow j z Hj). lia. }
    congruence.
  - exact (rounded_union_of_buckets A atoms arg s Hs Hne Hc Hsorted).
Qed.

Lemma rounded_bucket_partition_witness :
  exists s : Rounded.SliceIndexedAtoms float,
    Rounded.SliceIndexedAtoms_init Rounded.binary64
      (Rounded.F64.column [0.05; 0.9999999999999999; 0.95; 1]%float 1%float)
      (Rounded.ArgValue (Rounded.Number 0.1%float))
    = Ok s /\
    length (Rounded.sia_slice_index s) = 10%nat /\
    (forall j : nat,
       In j (concat (Rounded.sia_slice_index s)) <->
       exists z : float,
         nth_error [0.05; 0.9999999999999999; 0.95; 1]%float j = Some z /\
         (z <? 0.9999999999999999)%float = true).
Proof.
  destruct (Rounded.SliceIndexedAtoms_init Rounded.binary64
              (Rounded.F64.column
                 [0.05; 0.9999999999999999; 0.95; 1]%float 1%float)
              (Rounded.ArgValue (Rounded.Number 0.1%float)))
    as [s|e] eqn:Es; [|vm_compute in Es; discriminate Es].
  exists s. split; [reflexivity|].
  assert (Ets : Rounded.sia_slice_thickness s
                = repeat 0.1%float 10).
  { vm_compute in Es. injection Es as <-. reflexivity. }
  destruct (rounded_bucket_partition Rounded.binary64 _ _ s Es)
    as (_ & Hlen & _ & _ & _ & Hunion).
  - rewrite Ets. discriminate.
  - rewrite Ets. vm_compute. reflexivity.
  - rewrite Ets. vm_compute. reflexivity.
  - rewrite Ets in Hlen, Hunion. split; [exact Hlen | exact Hunion].
Defined.

End RoundedClaims.

(** ** The boundary table and the queries under rounding *)

Section RoundedQueries.

Import PrimFloat.
#[local] Set Warnings "-inexact-float".

Lemma rounded_accumulate_step (A : Rounded.arith)
      (l : list (Rounded.num A)) :
  forall (acc : Rounded.num A) (i : nat),
    (i < length l)%nat ->
    nth (S i) (acc :: Rounded.accumulate_from A acc l) (Rounded.zero A)
    = Rounded.add A
        (nth i (acc :: Rounded.accumulate_from A acc l) (Rounded.zero A))
        (nth i l (Rounded.zero A)).
Proof.
  induction l as [|x l IH]; intros acc i Hi; [simpl in Hi; lia|].
  destruct i as [|i]; [reflexivity|].
  cbn [Rounded.accumulate_from].
  change (nth (S (S i)) (acc :: ?c :: ?r) ?d) with (nth (S i) (c :: r) d).
  change (nth (S i) (acc :: ?c :: ?r) ?d) with (nth i (c :: r) d).
  change (nth (S i) (x :: l) ?d) with (nth i l d).
  apply IH. simpl in Hi. lia.
Qed.

Lemma rounded_slice_limits_length (A : Rounded.arith)
      (ts : list (Rounded.num A)) :
  length (Rounded.slice_limits A ts) = length ts.
Proof.
  unfold Rounded.slice_limits. rewrite length_map, length_seq.
  cbn [Rounded.accumulate length].
  rewrite rounded_accumulate_from_length. lia.
Qed.

Lemma rounded_slice_limits_nth (A : Rounded.arith)
      (ts : list (Rounded.num A)) (i : nat)
      (d : Rounded.num A * Rounded.num A) :
  (i < length ts)%nat ->
  let cum := Rounded.accumulate A (Rounded.zero A :: ts) in
  nth i (Rounded.slice_limits A ts) d
  = (nth i cum (Rounded.zero A), nth (S i) cum (Rounded.zero A)).
Proof.
  intros Hi cum. unfold Rounded.slice_limits. fold cum.
  assert (Hlen : (length cum - 1 = length ts)%nat).
  { subst cum. cbn [Rounded.accumulate length].
    rewrite rounded_accumulate_from_length. lia. }
  rewrite Hlen.
  set (f := fun j : nat =>
              (nth j cum (Rounded.zero A), nth (S j) cum (Rounded.zero A))).
  rewrite (nth_indep _ d (f 0%nat))
    by (rewrite length_map, length_seq; exact Hi).
  rewrite (map_nth f (seq 0 (length ts)) 0%nat i).
  rewrite seq_nth by exact Hi. reflexivity.
Qed.

(** In any arithmetic the boundary table has one pair per slice,
    starts at 0, is contiguous, and the exit of a slice is the rounded
    sum of its entrance and its thickness.  The width [exit - entrance]
    is not the thickness: in binary64, for ten slabs of 0.1, slice 2 is
    [(0.2, 0.30000000000000004)], of width 0.10000000000000003; and for
    the thicknesses [2^53, 1, 1] the entrance and the exit of slice 1
    are equal. *)
Theorem rounded_slice_limits_step :
  (forall (A : Rounded.arith) (ts : list (Rounded.num A)) (i : nat),
     (i < length ts)%nat ->
     let limits := Rounded.slice_limits A ts in
     let d := (Rounded.zero A, Rounded.zero A) in
     length limits = length ts /\
     fst (nth 0 limits d) = Rounded.zero A /\
     snd (nth i limits d)
     = Rounded.add A (fst (nth i limits d)) (nth i ts (Rounded.zero A)) /\
     ((S i < length ts)%nat ->
      fst (nth (S i) limits d) = snd (nth i limits d))) /\
  (nth 2 (Rounded.slice_limits Rounded.binary64 (repeat 0.1%float 10))
       (0, 0)%float
   = (0.2, 0.30000000000000004)%float /\
   (0.30000000000000004 - 0.2)%float = 0.10000000000000003%float /\
   (0.10000000000000003 =? 0.1)%float = false /\
   nth 1 (Rounded.slice_limits Rounded.binary64
            [9007199254740992; 1; 1]%float) (0, 0)%float
   = (9007199254740992, 9007199254740992)%float).
Proof.
  split.
  - intros A ts i Hi limits d. subst limits d.
    split; [apply rounded_slice_limits_length|].
    rewrite !rounded_slice_limits_nth by lia. cbn [fst snd].
    split; [reflexivity|]. split.
    + cbn [Rounded.accumulate]. now apply rounded_accumulate_step.
    + intros Hi'. rewrite rounded_slice_limits_nth by exact Hi'.
      reflexivity.
  - repeat (split; [vm_compute; reflexivity|]). vm_compute. reflexivity.
Qed.

Lemma rounded_slice_limits_step_witness :
  snd (nth 7 (Rounded.slice_limits Rounded.binary64 (repeat 0.1%float 10))
           (0, 0)%float)
  = (fst (nth 7 (Rounded.slice_limits Rounded.binary64
                   (repeat 0.1%float 10)) (0, 0)%float)
     + nth 7 (repeat 0.1%float 10) 0)%float.
Proof.
  refine (proj1 (proj2 (proj2
            (proj1 rounded_slice_limits_step Rounded.binary64
               (repeat 0.1%float 10) 7%nat _)))).
  simpl. lia.
Defined.

Variable A : Rounded.arith.

Lemma rounded_digitize_length (xs bins : list (Rounded.num A))
      (labels : list nat) :
  Rounded.digitize A xs bins = Ok labels -> length labels = length xs.
Proof.
  unfold Rounded.digitize.
  destruct (Rounded.monotonicity A bins =? 0)%Z; [discriminate|].
  destruct (Rounded.monotonicity A bins =? -1)%Z;
    intros [= <-]; apply length_map.
Qed.

Lemma rounded_take_indices_ok (l : list (Rounded.Atom (Rounded.num A)))
      (idx : list nat) (d : Rounded.Atom (Rounded.num A)) :
  (forall j, In j idx -> (j < length l)%nat) ->
  Rounded.take_indices l idx = Ok (map (fun j => nth j l d) idx).
Proof.
  induction idx as [|j idx IH]; intros Hidx; [reflexivity|].
  cbn [Rounded.take_indices map].
  rewrite (nth_error_nth' l d (Hidx j (or_introl eq_refl))).
  rewrite IH by (intros j' Hj'; apply Hidx; now right). reflexivity.
Qed.

(** The buckets of a constructed object, one per slice, hold valid atom
    indices only. *)
Lemma rounded_constructed_index (atoms : Rounded.Atoms (Rounded.num A))
      (arg : Rounded.thickness_arg (Rounded.num A))
      (s : Rounded.SliceIndexedAtoms (Rounded.num A)) :
  Rounded.SliceIndexedAtoms_init A atoms arg = Ok s ->
  length (Rounded.sia_slice_index s)
  = length (Rounded.sia_slice_thickness s) /\
  forall b j, In b (Rounded.sia_slice_index s) -> In j b ->
              (j < length (Rounded.atom_list (Rounded.sia_atoms s)))%nat.
Proof.
  intros Hs.
  destruct (rounded_init_ok A _ _ _ Hs) as (Ha & _ & labels & Hd & Hi).
  apply rounded_digitize_length in Hd.
  unfold Rounded.positions_z in Hd. rewrite length_map in Hd.
  rewrite Hi, Ha. split.
  - rewrite label_to_index_length. unfold Py.len. lia.
  - intros b j Hb Hj.
    apply (In_nth _ _ []) in Hb. destruct Hb as (k & Hk & <-).
    rewrite label_to_index_length in Hk.
    apply label_to_index_In in Hj; [|exact Hk]. lia.
Qed.

Lemma rounded_in_slice_single (s : Rounded.SliceIndexedAtoms (Rounded.num A))
      (k : nat) :
  (k < length (Rounded.sia_slice_index s))%nat ->
  Rounded.sia_in_slice s (Z.of_nat k) (Some (Z.of_nat k + 1)%Z)
  = Ok (nth k (Rounded.sia_slice_index s) []).
Proof.
  intros Hk. unfold Rounded.sia_in_slice.
  replace (Z.of_nat k + 1 - Z.of_nat k)%Z with 1%Z by lia.
  cbn [Z.ltb Z.compare Pos.compare Pos.compare_cont].
  now apply getitem_in_range.
Qed.

Lemma rounded_in_slice_all (s : Rounded.SliceIndexedAtoms (Rounded.num A)) :
  length (Rounded.sia_slice_index s)
  = length (Rounded.sia_slice_thickness s) ->
  (0 < Rounded.sia_num_slices s)%Z ->
  Rounded.sia_in_slice s 0%Z (Some (Rounded.sia_num_slices s))
  = Ok (concat (Rounded.sia_slice_index s)).
Proof.
  intros Hlen Hpos.
  unfold Rounded.sia_in_slice, Rounded.sia_num_slices, Py.len in *.
  rewrite Z.sub_0_r.
  destruct (Z.of_nat (length (Rounded.sia_slice_thickness s)) <? 2)%Z eqn:E;
    zbool.
  - assert (H1 : length (Rounded.sia_slice_index s) = 1%nat) by lia.
    destruct (Rounded.sia_slice_index s) as [|b [|b' r]];
      try discriminate.
    cbn [concat]. now rewrite app_nil_r.
  - rewrite <- Hlen. fold (Py.len (Rounded.sia_slice_index s)).
    rewrite getslice_whole.
    destruct (Rounded.sia_slice_index s) as [|b r] eqn:Ei;
      [simpl in Hlen; lia|].
    reflexivity.
Qed.

(** The result of a query without species filter, given the indices it
    selects. *)
Lemma rounded_get_unfiltered (s : Rounded.SliceIndexedAtoms (Rounded.num A))
      (f : Z) (l : option Z) (idx : list nat) :
  Rounded.sia_in_slice s f l = Ok idx ->
  (forall j, In j idx ->
             (j < length (Rounded.atom_list (Rounded.sia_atoms s)))%nat) ->
  exists r : Rounded.Atoms (Rounded.num A),
    Rounded.sia_get_atoms_in_slices A s f l None = Ok r /\
    Rounded.cell_zz r
    = Rounded.sum A
        (Py.getslice (Rounded.sia_slice_thickness s) (Some f)
           (Some (match l with None => f | Some x => x end))) /\
    Forall2 (Rounded.lowered A (Rounded.sia_atoms s)
               (Rounded.sum A
                  (Py.getslice (Rounded.sia_slice_thickness s) None
                     (Some f))))
            idx (Rounded.atom_list r).
Proof.
  intros Hidx Hok.
  unfold Rounded.sia_get_atoms_in_slices, Rounded.select_indices.
  rewrite Hidx. cbn [bind].
  set (d := Rounded.mkAtom
              (Rounded.mkVec3 (Rounded.zero A) (Rounded.zero A)
                 (Rounded.zero A)) 0%Z).
  rewrite (rounded_take_indices_ok _ idx d Hok). cbn [bind].
  eexists. split; [reflexivity|]. split; [reflexivity|].
  cbn [Rounded.shift_z Rounded.set_cell_zz Rounded.atom_list].
  clear Hidx. induction idx as [|j idx IH]; cbn [map]; constructor.
  - exists (nth j (Rounded.atom_list (Rounded.sia_atoms s)) d).
    split; [|repeat split].
    apply nth_error_nth'. apply Hok. now left.
  - apply IH. intros j' Hj'. apply Hok. now right.
Qed.

End RoundedQueries.

Section RoundedQueryClaims.

Import PrimFloat.
#[local] Set Warnings "-inexact-float".

(** Indexing a constructed [SliceIndexedAtoms] by a slice number
    [i] below the number of slices returns the atoms of bucket [i], one
    for one and in order, each with [np.sum(slice_thickness[:i])]
    subtracted from its height, in a box whose height is [np.sum] of the
    one thickness; a number from the slice count on is an index error.
    The amount subtracted is not the entrance of the slice: in binary64,
    for ten slabs of 0.1, the entrance of slice 8 is the running sum
    0.7999999999999999, item 8 subtracts 0.8, and the atom at the
    entrance comes back at the height -1.1102230246251565e-16. *)
Theorem rounded_indexed_getitem :
  (forall (A : Rounded.arith) (atoms : Rounded.Atoms (Rounded.num A))
          (arg : Rounded.thickness_arg (Rounded.num A))
          (s : Rounded.SliceIndexedAtoms (Rounded.num A)),
     Rounded.SliceIndexedAtoms_init A atoms arg = Ok s ->
     (forall i : nat,
        (i < length (Rounded.sia_slice_thickness s))%nat ->
        exists r : Rounded.Atoms (Rounded.num A),
          Rounded.sia_getitem A s (ItemInt (Z.of_nat i)) = Ok r /\
          Rounded.cell_zz r
          = Rounded.sum A
              [nth i (Rounded.sia_slice_thickness s) (Rounded.zero A)] /\
          Forall2 (Rounded.lowered A atoms
                     (Rounded.sum A
                        (firstn i (Rounded.sia_slice_thickness s))))
                  (nth i (Rounded.sia_slice_index s) [])
                  (Rounded.atom_list r)) /\
     (forall i : Z,
        (Rounded.sia_num_slices s <= i)%Z ->
        Rounded.sia_getitem A s (ItemInt i) = Raise IndexError)) /\
  (exists (s : Rounded.SliceIndexedAtoms float) (r : Rounded.Atoms float),
     Rounded.SliceIndexedAtoms_init Rounded.binary64
       (Rounded.F64.column [0.05; 0.7999999999999999; 0.85]%float 1%float)
       (Rounded.ArgValue (Rounded.Number 0.1%float))
     = Ok s /\
     fst (nth 8 (Rounded.slice_limits Rounded.binary64
                   (Rounded.sia_slice_thickness s)) (0, 0)%float)
     = 0.7999999999999999%float /\
     Rounded.sum Rounded.binary64
       (firstn 8 (Rounded.sia_slice_thickness s)) = 0.8%float /\
     nth 8 (Rounded.sia_slice_index s) [] = [1%nat; 2%nat] /\
     Rounded.sia_getitem Rounded.binary64 s (ItemInt 8) = Ok r /\
     map Rounded.z_of (Rounded.atom_list r)
     = [-1.1102230246251565e-16; 0.04999999999999993]%float /\
     Rounded.cell_zz r = 0.1%float).
Proof.
  split.
  - intros A atoms arg s Hs.
    destruct (rounded_init_ok A _ _ _ Hs) as (Ha & _).
    destruct (rounded_constructed_index A _ _ _ Hs) as (Hlen & Hvalid).
    split.
    + intros i Hi. unfold Rounded.sia_getitem.
      rewrite unpack_int_ok
        by (unfold Rounded.sia_num_slices, Py.len; lia).
      cbn [bind fst snd].
      assert (Hidx := rounded_in_slice_single A s i ltac:(lia)).
      destruct (rounded_get_unfiltered A s _ _ _ Hidx)
        as (r & Hr & Hc & Hat).
      { intros j Hj. eapply Hvalid; [|exact Hj]. apply nth_In. lia. }
      exists r. split; [exact Hr|]. split.
      * rewrite Hc.
        now rewrite (@getslice_single _ (Rounded.sia_slice_thickness s) i
                       (Rounded.zero A)) by exact Hi.
      * rewrite getslice_prefix in Hat by lia. rewrite Ha in Hat.
        exact Hat.
    + intros i Hi. unfold Rounded.sia_getitem, _unpack_item.
      cbn [bind fst snd]. rewrite Z.min_r by lia.
      destruct (i >=? Rounded.sia_num_slices s)%Z eqn:E;
        [reflexivity | lia].
  - eexists. eexists. split; [vm_compute; reflexivity|].
    do 3 (split; [vm_compute; reflexivity|]).
    split; [vm_compute; reflexivity|].
    split; vm_compute; reflexivity.
Qed.

Lemma rounded_indexed_getitem_witness :
  exists r : Rounded.Atoms float,
    Rounded.sia_getitem Rounded.binary64
      (Rounded.mkSliceIndexedAtoms
         (Rounded.F64.column [0.5; 2; 4.5]%float 10%float)
         [2; 3; 5]%float [[0%nat]; [1%nat; 2%nat]; []])
      (ItemInt 1) = Ok r /\
    Rounded.cell_zz r = Rounded.sum Rounded.binary64 [3%float].
Proof.
  destruct (proj1 (proj1 rounded_indexed_getitem Rounded.binary64
                     (Rounded.F64.column [0.5; 2; 4.5]%float 10%float)
                     (Rounded.ArgValue (Rounded.Sequence [2; 3; 5]%float))
                     (Rounded.mkSliceIndexedAtoms
                        (Rounded.F64.column [0.5; 2; 4.5]%float 10%float)
                        [2; 3; 5]%float [[0%nat]; [1%nat; 2%nat]; []])
                     ltac:(vm_compute; reflexivity))
              1%nat ltac:(simpl; lia)) as (r & Hr & Hc & _).
  exists r. split; [exact Hr | exact Hc].
Defined.

(** The query [(0, N)] of a constructed [SliceIndexedAtoms] with
    [N >= 1] slices selects the atoms of all the buckets, in bucket
    order, subtracts [np.sum(())] from their heights, and returns a box
    of height [np.sum(slice_thickness)].  When the bin edges never
    decrease, the atoms selected are those below the last bin edge, the
    last entry of [np.cumsum(slice_thickness)]; that edge is not the box
    height: in binary64, for ten slabs of 0.1, the box height is 1.0 and
    the atom at 0.9999999999999999 is not selected. *)
Theorem rounded_full_range_query :
  (forall (A : Rounded.arith) (atoms : Rounded.Atoms (Rounded.num A))
          (arg : Rounded.thickness_arg (Rounded.num A))
          (s : Rounded.SliceIndexedAtoms (Rounded.num A)),
     Rounded.SliceIndexedAtoms_init A atoms arg = Ok s ->
     (0 < Rounded.sia_num_slices s)%Z ->
     let ts := Rounded.sia_slice_thickness s in
     let bins := Rounded.cumsum A ts in
     let zs := Rounded.positions_z atoms in
     let idx := concat (Rounded.sia_slice_index s) in
     exists r : Rounded.Atoms (Rounded.num A),
       Rounded.sia_in_slice s 0%Z (Some (Rounded.sia_num_slices s))
       = Ok idx /\
       Rounded.sia_get_atoms_in_slices A s 0%Z
         (Some (Rounded.sia_num_slices s)) None = Ok r /\
       Rounded.cell_zz r = Rounded.sum A ts /\
       Forall2 (Rounded.lowered A atoms (Rounded.sum A [])) idx
               (Rounded.atom_list r) /\
       (Rounded.coherentb A (zs ++ bins) = true ->
        Rounded.sortedb A (Rounded.leb A) bins = true ->
        forall j : nat,
          In j idx <->
          exists z : Rounded.num A,
            nth_error zs j = Some z /\
            Rounded.ltb A z (last bins (Rounded.zero A)) = true)) /\
  (Rounded.sum Rounded.binary64 [] = 0%float /\
   exists (s : Rounded.SliceIndexedAtoms float) (r : Rounded.Atoms float),
     Rounded.SliceIndexedAtoms_init Rounded.binary64
       (Rounded.F64.column [0.05; 0.9999999999999999; 0.95; 1]%float
          1%float)
       (Rounded.ArgValue (Rounded.Number 0.1%float))
     = Ok s /\
     Rounded.sia_get_atoms_in_slices Rounded.binary64 s 0%Z (Some 10%Z) None
     = Ok r /\
     Rounded.cell_zz r = 1%float /\
     map Rounded.z_of (Rounded.atom_list r) = [0.05; 0.95]%float).
Proof.
  split.
  - intros A atoms arg s Hs HN ts bins zs idx.
    destruct (rounded_init_ok A _ _ _ Hs) as (Ha & _).
    destruct (rounded_constructed_index A _ _ _ Hs) as (Hlen & Hvalid).
    pose proof (rounded_in_slice_all A s Hlen HN) as Hidx. fold idx in Hidx.
    destruct (rounded_get_unfiltered A s _ _ _ Hidx) as (r & Hr & Hc & Hat).
    { intros j Hj. apply in_concat in Hj. destruct Hj as (b & Hb & Hj).
      eapply Hvalid; eauto. }
    exists r. split; [exact Hidx|]. split; [exact Hr|].
    split; [|split].
    + rewrite Hc. unfold Rounded.sia_num_slices. now rewrite getslice_whole.
    + assert (E : Py.getslice (Rounded.sia_slice_thickness s) None
                    (Some 0%Z) = [])
        by (apply (@getslice_prefix _ (Rounded.sia_slice_thickness s)
                     0%nat); lia).
      rewrite E, Ha in Hat. exact Hat.
    + intros Hc' Hsorted.
      assert (Hne : ts <> []).
      { intros E. unfold Rounded.sia_num_slices, Py.len in HN.
        fold ts in HN. rewrite E in HN. simpl in HN. lia. }
      exact (rounded_union_of_buckets A atoms arg s Hs Hne Hc' Hsorted).
  - split; [vm_compute; reflexivity|].
    eexists. eexists. split; [vm_compute; reflexivity|].
    split; [vm_compute; reflexivity|].
    split; vm_compute; reflexivity.
Qed.

Lemma rounded_full_range_query_witness :
  exists r : Rounded.Atoms float,
    Rounded.sia_get_atoms_in_slices Rounded.binary64
      (Rounded.mkSliceIndexedAtoms
         (Rounded.F64.column [0.5; 2; 4.5]%float 10%float)
         [2; 3; 5]%float [[0%nat]; [1%nat; 2%nat]; []])
      0%Z (Some 3%Z) None = Ok r /\
    Rounded.cell_zz r = Rounded.sum Rounded.binary64 [2; 3; 5]%float.
Proof.
  destruct (proj1 rounded_full_range_query Rounded.binary64
              (Rounded.F64.column [0.5; 2; 4.5]%float 10%float)
              (Rounded.ArgValue (Rounded.Sequence [2; 3; 5]%float))
              (Rounded.mkSliceIndexedAtoms
                 (Rounded.F64.column [0.5; 2; 4.5]%float 10%float)
                 [2; 3; 5]%float [[0%nat]; [1%nat; 2%nat]; []])
              ltac:(vm_compute; reflexivity) ltac:(reflexivity))
    as (r & _ & Hr & Hc & _).
  exists r. split; [exact Hr | exact Hc].
Defined.

End RoundedQueryClaims.
